(** * Streaming chat screen: coalescer, bounded history, throttled scroll

    A shallow embedding of [chat_ui/screens/chat_screen.py]
    ([ModernChatScreen] and [ModernBubble]) together with the Kivy clock
    and the worker threads the screen starts, followed by the properties
    of the streaming path: chunk batching, history trimming, streamed
    text reconstruction, the demo fallback and the scroll throttle.

    Conventions of the model.
    - A Python [str] is a list of Unicode code points.
    - Times are integers in milliseconds; [time.time()] reads the field
      [now].  Float rounding is not modelled.
    - A handler of the screen runs to completion as one step: the
      interleaving of two handlers' bodies on different threads is not
      modelled.
    - Every [ModernBubble] ever created lives in [heap]; a widget
      reference is its index.  [children] is [self.messages.children],
      which Kivy keeps newest first ([add_widget] inserts at index 0).
    - Values defined outside the four source files ([Config], [Messages],
      [str.lower]) are parameters. *)

From Stdlib Require Import ZArith NArith String Ascii List Lia Bool.
From Stdlib Require Import DecimalString.
From Stdlib Require QArith.
From stdpp Require Import base list.

Local Open Scope Z_scope.

(** ** Python strings *)

Definition str := list N.

(** An ASCII literal as a [str]. *)
Definition lit (s : string) : str :=
  map N_of_ascii (list_ascii_of_string s).

(** [ch.isspace()] as used by [str.strip()] without arguments. *)
Definition isspace (c : N) : bool :=
  ((9 <=? c) && (c <=? 13) || (28 <=? c) && (c <=? 32)
   || (c =? 133) || (c =? 160) || (c =? 5760)
   || (8192 <=? c) && (c <=? 8202)
   || (c =? 8232) || (c =? 8233) || (c =? 8239) || (c =? 8287)
   || (c =? 12288))%N.

Fixpoint lstrip (s : str) : str :=
  match s with
  | c :: s' => if isspace c then lstrip s' else s
  | [] => []
  end.

Definition rstrip (s : str) : str := rev (lstrip (rev s)).

Definition strip (s : str) : str := rstrip (lstrip s).

Fixpoint startswith (p s : str) : bool :=
  match p, s with
  | [], _ => true
  | _ :: _, [] => false
  | a :: p', b :: s' => (a =? b)%N && startswith p' s'
  end.

(** [needle in hay] *)
Fixpoint contains (needle hay : str) : bool :=
  match hay with
  | [] => startswith needle []
  | _ :: hay' => startswith needle hay || contains needle hay'
  end.

(** ** Data *)

(** [ModernBubble(text, is_user)]: [text] is [self.label.text]. *)
Record ModernBubble := mkBubble { text : str; is_user : bool }.

(** A widget reference: the index of its object in the heap. *)
Abbreviation ref := nat (only parsing).

(** [ConnectionState] of [chat_ui.core.websocket_client], with the five
    members the screen names; [OTHER_STATE] stands for any member its
    status map does not list. *)
Inductive ConnectionState :=
  | DISCONNECTED | CONNECTING | CONNECTED | ERROR | RECONNECTING
  | OTHER_STATE.

(** The values the screen reads from [chat_ui.core.config]. *)
Record Config := mkConfig {
  SCROLL_THROTTLE_MS : Z;
  TEXT_BATCH_MS : Z;
  MAX_MESSAGE_HISTORY : Z;
  WELCOME_MESSAGE : str;
  MSG_CONNECTING : str;
  MSG_ONLINE : str;
  MSG_DEMO_MODE : str;
  MSG_OFFLINE : str;
  MSG_CONNECTION_ERROR : str;
  MSG_RECONNECTING : str
}.

(** Callbacks handed to [Clock.schedule_once]. *)
Inductive task :=
  | T_initial_scroll
  | T_test_backend
  | T_do_throttled_scroll
  | T_process_batched_chunks
  | T_set_backend_available (b : bool)
  | T_set_status (s : str)
  | T_show_error_message (error_msg : str)
  | T_focus_input.

(** Running worker threads, by target. *)
Inductive thread :=
  | Th_test
  | Th_send (message : str).

Record Screen := mkScreen {
  heap : list ModernBubble;
  children : list ref;
  current_bubble : option ref;
  backend_available : bool;
  status_label : str;
  text_input : str;
  text_input_focus : bool;
  _scroll_scheduled : bool;
  _last_scroll_time : Z;
  _pending_chunks : list str;
  _text_update_scheduled : bool;
  (* the Kivy clock queue (due time, callback), the worker threads, the
     wall clock *)
  clock : list (Z * task);
  threads : list thread;
  now : Z;
  (* observations: the times at which [scroll_y] was set to 0, and the
     texts passed to [_append_chunk_batch], oldest first *)
  scrolls : list Z;
  batches : list str
}.

#[global] Instance task_eq_dec : EqDecision task.
Proof. solve_decision. Defined.

Definition set_heap (v : list ModernBubble) (st : Screen) : Screen :=
  mkScreen v (children st) (current_bubble st) (backend_available st)
    (status_label st) (text_input st) (text_input_focus st)
    (_scroll_scheduled st) (_last_scroll_time st) (_pending_chunks st)
    (_text_update_scheduled st) (clock st) (threads st) (now st)
    (scrolls st) (batches st).
Definition set_children (v : list ref) (st : Screen) : Screen :=
  mkScreen (heap st) v (current_bubble st) (backend_available st)
    (status_label st) (text_input st) (text_input_focus st)
    (_scroll_scheduled st) (_last_scroll_time st) (_pending_chunks st)
    (_text_update_scheduled st) (clock st) (threads st) (now st)
    (scrolls st) (batches st).
Definition set_current_bubble (v : option ref) (st : Screen) : Screen :=
  mkScreen (heap st) (children st) v (backend_available st)
    (status_label st) (text_input st) (text_input_focus st)
    (_scroll_scheduled st) (_last_scroll_time st) (_pending_chunks st)
    (_text_update_scheduled st) (clock st) (threads st) (now st)
    (scrolls st) (batches st).
Definition set_backend_available (v : bool) (st : Screen) : Screen :=
  mkScreen (heap st) (children st) (current_bubble st) v (status_label st)
    (text_input st) (text_input_focus st) (_scroll_scheduled st)
    (_last_scroll_time st) (_pending_chunks st) (_text_update_scheduled st)
    (clock st) (threads st) (now st) (scrolls st) (batches st).
Definition set_status_label (v : str) (st : Screen) : Screen :=
  mkScreen (heap st) (children st) (current_bubble st)
    (backend_available st) v (text_input st) (text_input_focus st)
    (_scroll_scheduled st) (_last_scroll_time st) (_pending_chunks st)
    (_text_update_scheduled st) (clock st) (threads st) (now st)
    (scrolls st) (batches st).
Definition set_text_input (v : str) (st : Screen) : Screen :=
  mkScreen (heap st) (children st) (current_bubble st)
    (backend_available st) (status_label st) v (text_input_focus st)
    (_scroll_scheduled st) (_last_scroll_time st) (_pending_chunks st)
    (_text_update_scheduled st) (clock st) (threads st) (now st)
    (scrolls st) (batches st).
Definition set_text_input_focus (v : bool) (st : Screen) : Screen :=
  mkScreen (heap st) (children st) (current_bubble st)
    (backend_available st) (status_label st) (text_input st) v
    (_scroll_scheduled st) (_last_scroll_time st) (_pending_chunks st)
    (_text_update_scheduled st) (clock st) (threads st) (now st)
    (scrolls st) (batches st).
Definition set_scroll_scheduled (v : bool) (st : Screen) : Screen :=
  mkScreen (heap st) (children st) (current_bubble st)
    (backend_available st) (status_label st) (text_input st)
    (text_input_focus st) v (_last_scroll_time st) (_pending_chunks st)
    (_text_update_scheduled st) (clock st) (threads st) (now st)
    (scrolls st) (batches st).
Definition set_last_scroll_time (v : Z) (st : Screen) : Screen :=
  mkScreen (heap st) (children st) (current_bubble st)
    (backend_available st) (status_label st) (text_input st)
    (text_input_focus st) (_scroll_scheduled st) v (_pending_chunks st)
    (_text_update_scheduled st) (clock st) (threads st) (now st)
    (scrolls st) (batches st).
Definition set_pending_chunks (v : list str) (st : Screen) : Screen :=
  mkScreen (heap st) (children st) (current_bubble st)
    (backend_available st) (status_label st) (text_input st)
    (text_input_focus st) (_scroll_scheduled st) (_last_scroll_time st) v
    (_text_update_scheduled st) (clock st) (threads st) (now st)
    (scrolls st) (batches st).
Definition set_text_update_scheduled (v : bool) (st : Screen) : Screen :=
  mkScreen (heap st) (children st) (current_bubble st)
    (backend_available st) (status_label st) (text_input st)
    (text_input_focus st) (_scroll_scheduled st) (_last_scroll_time st)
    (_pending_chunks st) v (clock st) (threads st) (now st) (scrolls st)
    (batches st).
Definition set_clock (v : list (Z * task)) (st : Screen) : Screen :=
  mkScreen (heap st) (children st) (current_bubble st)
    (backend_available st) (status_label st) (text_input st)
    (text_input_focus st) (_scroll_scheduled st) (_last_scroll_time st)
    (_pending_chunks st) (_text_update_scheduled st) v (threads st) (now st)
    (scrolls st) (batches st).
Definition set_threads (v : list thread) (st : Screen) : Screen :=
  mkScreen (heap st) (children st) (current_bubble st)
    (backend_available st) (status_label st) (text_input st)
    (text_input_focus st) (_scroll_scheduled st) (_last_scroll_time st)
    (_pending_chunks st) (_text_update_scheduled st) (clock st) v (now st)
    (scrolls st) (batches st).
Definition set_now (v : Z) (st : Screen) : Screen :=
  mkScreen (heap st) (children st) (current_bubble st)
    (backend_available st) (status_label st) (text_input st)
    (text_input_focus st) (_scroll_scheduled st) (_last_scroll_time st)
    (_pending_chunks st) (_text_update_scheduled st) (clock st) (threads st)
    v (scrolls st) (batches st).
Definition set_scrolls (v : list Z) (st : Screen) : Screen :=
  mkScreen (heap st) (children st) (current_bubble st)
    (backend_available st) (status_label st) (text_input st)
    (text_input_focus st) (_scroll_scheduled st) (_last_scroll_time st)
    (_pending_chunks st) (_text_update_scheduled st) (clock st) (threads st)
    (now st) v (batches st).
Definition set_batches (v : list str) (st : Screen) : Screen :=
  mkScreen (heap st) (children st) (current_bubble st)
    (backend_available st) (status_label st) (text_input st)
    (text_input_focus st) (_scroll_scheduled st) (_last_scroll_time st)
    (_pending_chunks st) (_text_update_scheduled st) (clock st) (threads st)
    (now st) (scrolls st) v.

(** ** Kivy primitives *)

(** [Clock.schedule_once(callback, timeout)] *)
Definition schedule_once (cb : task) (timeout : Z) (st : Screen) : Screen :=
  set_clock (clock st ++ [(now st + timeout, cb)]) st.

(** [threading.Thread(target=..., daemon=True).start()] *)
Definition start_thread (th : thread) (st : Screen) : Screen :=
  set_threads (threads st ++ [th]) st.

(** [ModernBubble(text, is_user)]: a fresh object. *)
Definition new_bubble (t : str) (u : bool) (st : Screen) : ref * Screen :=
  (length (heap st), set_heap (heap st ++ [mkBubble t u]) st).

(** [self.messages.add_widget(w)] *)
Definition add_widget (w : ref) (st : Screen) : Screen :=
  set_children (w :: children st) st.

(** [list.remove]: the first occurrence. *)
Fixpoint list_remove (w : ref) (l : list ref) : list ref :=
  match l with
  | [] => []
  | x :: l' => if decide (x = w) then l' else x :: list_remove w l'
  end.

(** [self.messages.remove_widget(w)] *)
Definition remove_widget (w : ref) (st : Screen) : Screen :=
  set_children (list_remove w (children st)) st.

(** [bubble.label.text].  A reference of a well-formed screen points into
    the heap; the other branch is there for totality. *)
Definition label_text (b : ref) (st : Screen) : str :=
  match heap st !! b with
  | Some o => text o
  | None => []
  end.

(** [ModernBubble.update_text] *)
Definition update_text (b : ref) (t : str) (st : Screen) : Screen :=
  match heap st !! b with
  | Some o => set_heap (<[b := mkBubble t (is_user o)]> (heap st)) st
  | None => st
  end.

(** ** The screen *)

Section ModernChatScreen.

Variable cfg : Config.

(** [str.lower] *)
Variable lower : str -> str.

Definition _scroll_throttle_delay : Z := SCROLL_THROTTLE_MS cfg.
Definition _text_batch_delay : Z := TEXT_BATCH_MS cfg.
Definition max_messages : Z := MAX_MESSAGE_HISTORY cfg.

(** [self.scroll_view] is set by [_setup_ui] and never reset, so the test
    in the source always passes. *)
Definition _do_scroll (st : Screen) : Screen :=
  set_scrolls (scrolls st ++ [now st]) st.

(** The event handle kept in [_pending_scroll_event] is never read or
    cancelled, so it has no field. *)
Definition _scroll_to_bottom (force : bool) (st : Screen) : Screen :=
  let current_time := now st in
  if force
     || (_scroll_throttle_delay <=? current_time - _last_scroll_time st)
  then set_last_scroll_time current_time (_do_scroll st)
  else if negb (_scroll_scheduled st)
  then schedule_once T_do_throttled_scroll _scroll_throttle_delay
         (set_scroll_scheduled true st)
  else st.

Definition _do_throttled_scroll (st : Screen) : Screen :=
  let st := set_scroll_scheduled false st in
  let st := _do_scroll st in
  set_last_scroll_time (now st) st.

Definition _test_backend (st : Screen) : Screen :=
  start_thread Th_test st.

(** [_threaded_test], from the result of [client.test_connection()] on;
    [None] is an exception. *)
Definition _threaded_test (r : option bool) (st : Screen) : Screen :=
  match r with
  | Some test_success =>
      let st := schedule_once (T_set_backend_available test_success) 0 st in
      if test_success
      then schedule_once (T_set_status (MSG_ONLINE cfg)) 0 st
      else schedule_once (T_set_status (MSG_DEMO_MODE cfg)) 0 st
  | None => schedule_once (T_set_status (MSG_DEMO_MODE cfg)) 0 st
  end.

Definition status_map (state : ConnectionState) : str :=
  match state with
  | DISCONNECTED => MSG_OFFLINE cfg
  | CONNECTING => MSG_CONNECTING cfg
  | CONNECTED => MSG_ONLINE cfg
  | ERROR => MSG_CONNECTION_ERROR cfg
  | RECONNECTING => MSG_RECONNECTING cfg
  | OTHER_STATE => MSG_DEMO_MODE cfg
  end.

Definition is_connected (state : ConnectionState) : bool :=
  match state with CONNECTED => true | _ => false end.

(** [cs] is [client.connection_state], [None] when the client has no
    such attribute. *)
Definition _monitor_connection_state (cs : option ConnectionState)
    (st : Screen) : Screen :=
  match cs with
  | Some state =>
      let new_status := status_map state in
      let st :=
        if decide (status_label st = new_status) then st
        else set_status_label new_status st in
      set_backend_available (is_connected state) st
  | None =>
      if negb (backend_available st)
         && negb (bool_decide (status_label st = MSG_DEMO_MODE cfg))
      then set_status_label (MSG_DEMO_MODE cfg) st
      else st
  end.

Definition remove_oldest (st : Screen) : Screen :=
  match last (children st) with
  | Some w => remove_widget w st
  | None => st
  end.

Definition _cleanup_old_messages (st : Screen) : Screen :=
  let n := Z.of_nat (length (children st)) in
  if max_messages <? n then
    let messages_to_remove := n - max_messages in
    Nat.iter (Z.to_nat messages_to_remove) remove_oldest st
  else st.

Definition _send_to_backend (message : str) (st : Screen) : Screen :=
  start_thread (Th_send message) st.

Definition demo_text (message : str) : str :=
  lit "Demo response to: '" ++ take 30 message
  ++ (if (30 <? length message)%nat then lit "..." else [])
  ++ lit "'".

Definition _show_demo_response (message : str) (st : Screen) : Screen :=
  let '(ai_bubble, st) := new_bubble (demo_text message) false st in
  let st := add_widget ai_bubble st in
  _scroll_to_bottom false st.

Definition send_message (st : Screen) : Screen :=
  let message_text := strip (text_input st) in
  match message_text with
  | [] => st
  | _ :: _ =>
      let st := set_text_input [] st in
      let '(user_bubble, st) := new_bubble message_text true st in
      let st := add_widget user_bubble st in
      let st := _scroll_to_bottom false st in
      let st := _cleanup_old_messages st in
      if backend_available st
      then _send_to_backend message_text st
      else _show_demo_response message_text st
  end.

Definition _format_error_message (error : str) : str :=
  if contains (lit "Connection refused") error
  then lit "Cannot connect to server. Please check your connection."
  else if contains (lit "timeout") (lower error)
  then lit "Request timed out. Please try again."
  else if contains (lit "websocket") (lower error)
  then lit "Connection lost. Switching to demo mode."
  else lit "Something went wrong. Please try again.".

(** The handler of [_threaded_send] for an exception [e] raised by
    [client.send_message]; [error] is [str(e)]. *)
Definition _threaded_send_except (error : str) (st : Screen) : Screen :=
  let error_msg := _format_error_message error in
  schedule_once (T_show_error_message error_msg) 0 st.

(** U+274C, a space, then the message. *)
Definition _show_error_message (error_msg : str) (st : Screen) : Screen :=
  let '(error_bubble, st) :=
    new_bubble (10060%N :: 32%N :: error_msg) false st in
  let st := add_widget error_bubble st in
  let st := _scroll_to_bottom false st in
  let st := set_status_label (MSG_CONNECTION_ERROR cfg) st in
  set_backend_available false st.

Definition _on_chunk (chunk : str) (st : Screen) : Screen :=
  let st := set_pending_chunks (_pending_chunks st ++ [chunk]) st in
  if negb (_text_update_scheduled st)
  then schedule_once T_process_batched_chunks _text_batch_delay
         (set_text_update_scheduled true st)
  else st.

Definition _append_chunk_batch (t : str) (st : Screen) : Screen :=
  let st := set_batches (batches st ++ [t]) st in
  let '(b, st) :=
    match current_bubble st with
    | Some b => (b, st)
    | None =>
        let '(b, st) := new_bubble [] false st in
        (b, add_widget b (set_current_bubble (Some b) st))
    end in
  let current_text := label_text b st in
  let st := update_text b (current_text ++ t) st in
  _scroll_to_bottom false st.

Definition _process_batched_chunks (st : Screen) : Screen :=
  match _pending_chunks st with
  | [] => set_text_update_scheduled false st
  | _ :: _ =>
      let combined_text := concat (_pending_chunks st) in
      let st := set_pending_chunks [] st in
      let st := _append_chunk_batch combined_text st in
      set_text_update_scheduled false st
  end.

Definition _focus_input (st : Screen) : Screen :=
  set_text_input_focus true st.

Definition _on_message_complete (st : Screen) : Screen :=
  let st := set_current_bubble None st in
  schedule_once T_focus_input 0 st.

(** [__init__] at wall-clock time [t0]: the fields, then [_setup_ui]
    (welcome bubble, initial scroll after 0.01 s), then
    [_initialize_connection_monitoring] (backend test after 1.0 s). *)
Definition init (t0 : Z) : Screen :=
  let st :=
    mkScreen [] [] None false (MSG_CONNECTING cfg) [] false
      false 0 [] false [] [] t0 [] [] in
  let '(welcome, st) := new_bubble (WELCOME_MESSAGE cfg) false st in
  let st := add_widget welcome st in
  let st := schedule_once T_initial_scroll 10 st in
  schedule_once T_test_backend 1000 st.

(** ** The clock, the user and the worker threads *)

Definition run_task (cb : task) (st : Screen) : Screen :=
  match cb with
  | T_initial_scroll => _scroll_to_bottom true st
  | T_test_backend => _test_backend st
  | T_do_throttled_scroll => _do_throttled_scroll st
  | T_process_batched_chunks => _process_batched_chunks st
  | T_set_backend_available b => set_backend_available b st
  | T_set_status s => set_status_label s st
  | T_show_error_message m => _show_error_message m st
  | T_focus_input => _focus_input st
  end.

(** Modelled from the spec: [ChatWebSocketClient]
    ([chat_ui/core/websocket_client.py]) is not among the sources.  Its
    [test_connection] returns a boolean or raises; its [send_message]
    does the network exchange on the worker thread that calls it, and
    from there invokes [on_chunk] once per inbound fragment in arrival
    order and finally [on_complete] once, or raises.  A [worker_action]
    is what a worker thread of the screen does next. *)
Inductive worker_action :=
  | W_test_result (r : option bool)
  | W_chunk (chunk : str)
  | W_complete
  | W_raise (error : str).

Definition worker_step (i : nat) (a : worker_action) (st : Screen)
    : Screen :=
  match threads st !! i, a with
  | Some Th_test, W_test_result r =>
      set_threads (delete i (threads st)) (_threaded_test r st)
  | Some (Th_send _), W_chunk chunk => _on_chunk chunk st
  | Some (Th_send _), W_complete =>
      set_threads (delete i (threads st)) (_on_message_complete st)
  | Some (Th_send _), W_raise error =>
      set_threads (delete i (threads st)) (_threaded_send_except error st)
  | _, _ => st
  end.

Inductive input :=
  | Tick (d : nat)                          (* d ms pass *)
  | ClockFire (i : nat)                     (* the clock runs entry i *)
  | Monitor (cs : option ConnectionState)   (* the 2 s interval callback *)
  | UserTypes (s : str)
  | UserSends
  | Worker (i : nat) (a : worker_action).

Definition advance (d : nat) (st : Screen) : Screen :=
  set_now (now st + Z.of_nat d) st.

(** The clock runs a callback once its timeout has elapsed. *)
Definition clock_fire (i : nat) (st : Screen) : Screen :=
  match clock st !! i with
  | Some (due, cb) =>
      if due <=? now st
      then run_task cb (set_clock (delete i (clock st)) st)
      else st
  | None => st
  end.

Definition step (st : Screen) (ev : input) : Screen :=
  match ev with
  | Tick d => advance d st
  | ClockFire i => clock_fire i st
  | Monitor cs => _monitor_connection_state cs st
  | UserTypes s => set_text_input s st
  | UserSends => send_message st
  | Worker i a => worker_step i a st
  end.

Definition run (evs : list input) (st : Screen) : Screen :=
  foldl step st evs.

End ModernChatScreen.

(** ** Notions used by the properties *)

(** A sample configuration: 100 ms scroll throttle, 50 ms batch delay,
    a history of two messages. *)
Definition cfg_small : Config :=
  mkConfig 100 50 2 (lit "Welcome") (lit "Connecting...") (lit "Online")
    (lit "Demo Mode") (lit "Offline") (lit "Connection Error")
    (lit "Reconnecting...").

(** [str.lower] on the ASCII letters. *)
Definition lower_ascii (s : str) : str :=
  map (fun c => if ((65 <=? c) && (c <=? 90))%N then (c + 32)%N else c) s.

(** [children[-1]] removed from a list of children. *)
Definition drop_oldest (l : list ref) : list ref :=
  match last l with
  | Some w => list_remove w l
  | None => l
  end.

(** The widget tree is well formed: a widget has one parent slot, and
    every reference points to an object. *)
Definition wf_history (st : Screen) : Prop :=
  NoDup (children st)
  /\ Forall (fun w => (w < length (heap st))%nat) (children st)
  /\ (forall b, current_bubble st = Some b -> (b < length (heap st))%nat).

(** How many entries of the clock queue hold callback [cb]. *)
Definition pending_count (cb : task) (q : list (Z * task)) : nat :=
  length (filter (fun e => e.2 = cb) q).

Definition flag_count (b : bool) : nat := if b then 1%nat else 0%nat.

(** The scheduling flags agree with the clock queue, and chunks wait only
    while a flush is scheduled. *)
Definition scroll_ok (st : Screen) : Prop :=
  pending_count T_do_throttled_scroll (clock st)
  = flag_count (_scroll_scheduled st).

Definition flush_ok (st : Screen) : Prop :=
  pending_count T_process_batched_chunks (clock st)
  = flag_count (_text_update_scheduled st).

Definition wf_clock (st : Screen) : Prop :=
  scroll_ok st /\ flush_ok st
  /\ (_text_update_scheduled st = false -> _pending_chunks st = []).

(** [st'] differs from [st] by history, status, thread and scroll
    activity only: the coalescer and the wall clock are as before, and
    the clock queue changed at most by deferred scrolls. *)
Definition leaves_coalescer (st st' : Screen) : Prop :=
  _pending_chunks st' = _pending_chunks st
  /\ _text_update_scheduled st' = _text_update_scheduled st
  /\ batches st' = batches st
  /\ now st' = now st
  /\ (forall cb, cb <> T_do_throttled_scroll ->
       pending_count cb (clock st') = pending_count cb (clock st))
  /\ (scroll_ok st -> scroll_ok st').

(** Text handed to the coalescer: delivered or still waiting. *)
Definition streamed (st : Screen) : str :=
  concat (batches st) ++ concat (_pending_chunks st).

(** The three outcomes of a scroll request. *)
Inductive scroll_outcome (cfg : Config) (force : bool) (st : Screen)
    : Screen -> Prop :=
  | scroll_now :
      force = true
      \/ _scroll_throttle_delay cfg <= now st - _last_scroll_time st ->
      scroll_outcome cfg force st
        (set_last_scroll_time (now st) (_do_scroll st))
  | scroll_deferred :
      force = false ->
      now st - _last_scroll_time st < _scroll_throttle_delay cfg ->
      _scroll_scheduled st = false ->
      scroll_outcome cfg force st
        (schedule_once T_do_throttled_scroll (_scroll_throttle_delay cfg)
           (set_scroll_scheduled true st))
  | scroll_coalesced :
      force = false ->
      now st - _last_scroll_time st < _scroll_throttle_delay cfg ->
      _scroll_scheduled st = true ->
      scroll_outcome cfg force st st.

Section Observations.

Variable cfg : Config.
Variable lower : str -> str.

(** The chunk handed to [_on_chunk] by an input, if any. *)
Definition offered_by (st : Screen) (ev : input) : list str :=
  match ev with
  | Worker i (W_chunk chunk) =>
      match threads st !! i with
      | Some (Th_send _) => [chunk]
      | _ => []
      end
  | _ => []
  end.

(** The chunks offered along a run, in arrival order. *)
Fixpoint offered (evs : list input) (st : Screen) : list str :=
  match evs with
  | [] => []
  | ev :: evs' => offered_by st ev ++ offered evs' (step cfg lower st ev)
  end.

(** Position and due time of the scheduled callback [cb]. *)
Fixpoint find_task (cb : task) (q : list (Z * task)) : option (nat * Z) :=
  match q with
  | [] => None
  | (due, cb') :: q' =>
      if decide (cb' = cb) then Some (0%nat, due)
      else match find_task cb q' with
           | Some (i, d) => Some (S i, d)
           | None => None
           end
  end.

(** Let the scheduled flush, if any, become due and run. *)
Definition await_flush (st : Screen) : Screen :=
  match find_task T_process_batched_chunks (clock st) with
  | Some (i, due) =>
      clock_fire cfg i (advance (Z.to_nat (due - now st)) st)
  | None => st
  end.

(** Unforced scroll requests, each [d] ms after the previous one. *)
Definition scroll_requests (ds : list nat) (st : Screen) : Screen :=
  foldl (fun st d => _scroll_to_bottom cfg false (advance d st)) st ds.

(** Chunk batches applied to the history, each [d] ms after the previous
    one. *)
Definition append_batches (ds : list (nat * str)) (st : Screen) : Screen :=
  foldl (fun st dt => _append_chunk_batch cfg dt.2 (advance dt.1 st)) st ds.

(** Chunks offered to the coalescer, each [d] ms after the previous one. *)
Definition offer_chunks (ds : list (nat * str)) (st : Screen) : Screen :=
  foldl (fun st dc => _on_chunk cfg dc.2 (advance dc.1 st)) st ds.

End Observations.

(** ** Sample runs *)

(** Start-up with a reachable backend: the initial scroll and the probe
    become due, the probe succeeds, its two hand-offs run. *)
Definition boot_online : list input :=
  [Tick 1000; ClockFire 0; ClockFire 0;
   Worker 0 (W_test_result (Some true)); ClockFire 0; ClockFire 0].

(** The user sends "a"; the reply starts streaming into a bubble; the
    user sends "b" and types "c" while the reply is still streaming. *)
Definition streaming_then_two_sends : list input :=
  boot_online
  ++ [UserTypes (lit "a"); UserSends; Worker 0 (W_chunk (lit "x"));
      Tick 50; ClockFire 1;
      UserTypes (lit "b"); UserSends; UserTypes (lit "c")].

(** ** Notions used by the further properties *)

(** The timeout each callback is scheduled with, in ms. *)
Definition timeout_of (cfg : Config) (cb : task) : Z :=
  match cb with
  | T_initial_scroll => 10
  | T_test_backend => 1000
  | T_do_throttled_scroll => _scroll_throttle_delay cfg
  | T_process_batched_chunks => _text_batch_delay cfg
  | T_set_backend_available _ | T_set_status _
  | T_show_error_message _ | T_focus_input => 0
  end.

(** [st'] has the wall clock of [st] and its clock queue, followed by new
    entries whose callbacks satisfy [P], each scheduled now with its own
    timeout. *)
Definition enqueues (cfg : Config) (P : task -> Prop) (st st' : Screen)
    : Prop :=
  now st' = now st
  /\ exists new,
       clock st' = clock st ++ new
       /\ Forall (fun e => P e.2 /\ e.1 = now st + timeout_of cfg e.2) new.

Definition is_scroll (cb : task) : Prop := cb = T_do_throttled_scroll.

(** The time an input lets pass, in ms. *)
Definition elapsed (ev : input) : Z :=
  match ev with
  | Tick d => Z.of_nat d
  | _ => 0
  end.

(** The callbacks an input may hand to the clock. *)
Definition may_enqueue (cfg : Config) (lower : str -> str) (ev : input)
    (cb : task) : Prop :=
  match ev with
  | Tick _ | Monitor _ | UserTypes _ => False
  | UserSends | ClockFire _ => cb = T_do_throttled_scroll
  | Worker _ (W_test_result (Some b)) =>
      cb = T_set_backend_available b
      \/ cb = T_set_status (if b then MSG_ONLINE cfg else MSG_DEMO_MODE cfg)
  | Worker _ (W_test_result None) => cb = T_set_status (MSG_DEMO_MODE cfg)
  | Worker _ (W_chunk _) => cb = T_process_batched_chunks
  | Worker _ W_complete => cb = T_focus_input
  | Worker _ (W_raise error) =>
      cb = T_show_error_message (_format_error_message lower error)
  end.

(** The queue the clock leaves behind when it takes a due entry. *)
Definition clock_base (ev : input) (st : Screen) : list (Z * task) :=
  match ev with
  | ClockFire i =>
      match clock st !! i with
      | Some (due, _) =>
          if due <=? now st then delete i (clock st) else clock st
      | None => clock st
      end
  | _ => clock st
  end.

(** Whether an input makes the clock start the backend probe. *)
Definition starts_probe (st : Screen) (ev : input) : nat :=
  match ev with
  | ClockFire i =>
      match clock st !! i with
      | Some (due, T_test_backend) =>
          if due <=? now st then 1%nat else 0%nat
      | _ => 0%nat
      end
  | _ => 0%nat
  end.

(** An input that reports a usable backend: a successful probe, or a
    monitor tick that reads [CONNECTED]. *)
Definition reports_available (ev : input) : bool :=
  match ev with
  | Monitor (Some CONNECTED) => true
  | Worker _ (W_test_result (Some true)) => true
  | _ => false
  end.

(** The backend is not available, no hand-off will make it so, and no
    send thread runs. *)
Definition never_available (st : Screen) : Prop :=
  backend_available st = false
  /\ Forall (fun e => e.2 <> T_set_backend_available true) (clock st)
  /\ Forall (fun th => th = Th_test) (threads st).

(** No entry of the clock queue is due later than its timeout from now. *)
Definition due_ok (cfg : Config) (st : Screen) : Prop :=
  Forall (fun e => e.1 <= now st + timeout_of cfg e.2) (clock st).

(** The four messages [_format_error_message] can return. *)
Definition error_messages : list str :=
  [lit "Cannot connect to server. Please check your connection.";
   lit "Request timed out. Please try again.";
   lit "Connection lost. Switching to demo mode.";
   lit "Something went wrong. Please try again."].

Section MoreObservations.

Variable cfg : Config.
Variable lower : str -> str.

(** How many times the clock started the backend probe along a run. *)
Fixpoint probe_starts (evs : list input) (st : Screen) : nat :=
  match evs with
  | [] => 0%nat
  | ev :: evs' =>
      (starts_probe st ev + probe_starts evs' (step cfg lower st ev))%nat
  end.

End MoreObservations.

(** Every bubble of [st] is still there in [st'], by the same author,
    with its old text followed by some more, and none more for a user
    bubble. *)
Definition texts_grow (st st' : Screen) : Prop :=
  forall w o,
    heap st !! w = Some o ->
    exists t,
      heap st' !! w = Some (mkBubble (text o ++ t) (is_user o))
      /\ (is_user o = true -> t = []).

(** The bubble being streamed into is an AI bubble. *)
Definition current_is_ai (st : Screen) : Prop :=
  forall b o,
    current_bubble st = Some b -> heap st !! b = Some o ->
    is_user o = false.

(** ** Platform profiles and start-up configuration

    [chat_ui/core/mobile_config.py] and the configuration that
    [chat_ui/app.py] runs when it is imported.  Option names, section
    names and values are ASCII strings.  [kivy.utils.platform],
    [kivy.metrics.dp], [os.getenv], [int] and the two minimum sizes of
    [chat_ui.core.config] are parameters. *)

(** The values of [kivy.utils.platform]. *)
Inductive Platform := android | ios | win | linux | macosx | unknown.

#[global] Instance string_eq_dec : EqDecision string := String.string_dec.

(** A Python [dict] with string keys, in insertion order. *)
Definition dict (V : Type) : Type := list (string * V).

Fixpoint dict_get {V : Type} (k : string) (d : dict V) : option V :=
  match d with
  | [] => None
  | (k', v) :: d' => if decide (k' = k) then Some v else dict_get k d'
  end.

(** [d[k] = v]: an existing key keeps its place. *)
Fixpoint dict_set {V : Type} (k : string) (v : V) (d : dict V) : dict V :=
  match d with
  | [] => [(k, v)]
  | (k', v') :: d' =>
      if decide (k' = k) then (k, v) :: d' else (k', v') :: dict_set k v d'
  end.

(** [del d[k]] when the key is there: no entry for [k] is left. *)
Fixpoint dict_del {V : Type} (k : string) (d : dict V) : dict V :=
  match d with
  | [] => []
  | (k', v') :: d' =>
      if decide (k' = k) then dict_del k d' else (k', v') :: dict_del k d'
  end.

Definition dict_keys {V : Type} (d : dict V) : list string := d.*1.

(** A number of a profile: an [int], or a [float]. *)
Inductive number :=
  | py_int (z : Z)
  | py_float (q : QArith_base.Q).

Definition IS_MOBILE (platform : Platform) : bool :=
  match platform with android | ios => true | _ => false end.

Definition IS_ANDROID (platform : Platform) : bool :=
  match platform with android => true | _ => false end.

Definition IS_IOS (platform : Platform) : bool :=
  match platform with ios => true | _ => false end.

Section Platform.

Local Open Scope string_scope.

Definition get_websocket_config (platform : Platform) : dict number :=
  if IS_MOBILE platform then
    [("ping_interval", py_int 30); ("ping_timeout", py_int 10);
     ("connection_timeout", py_int 15); ("max_retries", py_int 5);
     ("retry_delay", py_float (QArith_base.Qmake 2 1))]
  else
    [("ping_interval", py_int 120); ("ping_timeout", py_int 10);
     ("connection_timeout", py_int 30); ("max_retries", py_int 3);
     ("retry_delay", py_float (QArith_base.Qmake 1 1))].

(** The Kivy configuration: sections of options. *)
Definition KivyConfig : Type := dict (dict string).

(** [ConfigParser.set]; [None] is [NoSectionError]. *)
Definition config_set (section option_name value : string) (c : KivyConfig)
    : option KivyConfig :=
  match dict_get section c with
  | Some opts => Some (dict_set section (dict_set option_name value opts) c)
  | None => None
  end.

(** [ConfigParser.remove_option]; [None] is [NoSectionError]. *)
Definition config_remove_option (section option_name : string) (c : KivyConfig)
    : option KivyConfig :=
  match dict_get section c with
  | Some opts => Some (dict_set section (dict_del option_name opts) c)
  | None => None
  end.

(** The value of an option, if the section and the option exist. *)
Definition config_get (section option_name : string) (c : KivyConfig)
    : option string :=
  match dict_get section c with
  | Some opts => dict_get option_name opts
  | None => None
  end.

(** [str(n)] for an [int]. *)
Definition str_of_int (n : Z) : string := NilZero.string_of_int (Z.to_int n).

(** Truth value of an [int] or [None]. *)
Definition truthy (x : option Z) : bool :=
  match x with
  | Some n => negb (n =? 0)%Z
  | None => false
  end.

Variable platform : Platform.

(** [kivy.metrics.dp], into whatever it measures in. *)
Variable V : Type.
Variable dp : Z -> V.

(** [os.getenv(name)], [None] when unset, and [int(s)], [None] when it
    raises [ValueError]. *)
Variable getenv : string -> option string.
Variable int_of_str : string -> option Z.

(** [str(Config.MIN_WIDTH)] and [str(Config.MIN_HEIGHT)]. *)
Variable MIN_WIDTH MIN_HEIGHT : string.

Definition get_spacing : dict V :=
  if IS_MOBILE platform then
    [("small", dp 12); ("medium", dp 16); ("large", dp 24);
     ("xlarge", dp 32)]
  else
    [("small", dp 8); ("medium", dp 12); ("large", dp 16);
     ("xlarge", dp 24)].

Definition get_sizes : dict V :=
  if IS_MOBILE platform then
    [("input_height", dp 80); ("header_height", dp 72);
     ("button_size", dp 56); ("avatar_size", dp 48);
     ("message_font", dp 16); ("title_font", dp 20);
     ("status_font", dp 14); ("input_font", dp 16)]
  else
    [("input_height", dp 60); ("header_height", dp 56);
     ("button_size", dp 48); ("avatar_size", dp 40);
     ("message_font", dp 14); ("title_font", dp 18);
     ("status_font", dp 12); ("input_font", dp 14)].

(** [os.getenv(name, default)] *)
Definition getenv_default (name default : string) : string :=
  match getenv name with
  | Some s => s
  | None => default
  end.

(** [None] is the [ValueError] of [int]; the width is read first. *)
Definition get_window_size : option (option Z * option Z) :=
  if IS_MOBILE platform then Some (None, None)
  else
    match int_of_str (getenv_default "CHAT_WINDOW_WIDTH" "400") with
    | Some width =>
        match int_of_str (getenv_default "CHAT_WINDOW_HEIGHT" "600") with
        | Some height => Some (Some width, Some height)
        | None => None
        end
    | None => None
    end.

(** [c >>= f] for the calls that may raise. *)
Definition and_then (c : option KivyConfig)
    (f : KivyConfig -> option KivyConfig) : option KivyConfig :=
  match c with
  | Some c' => f c'
  | None => None
  end.

Definition configure_kivy (c : KivyConfig) : option KivyConfig :=
  match get_window_size with
  | None => None
  | Some (width, height) =>
      let c1 :=
        if truthy width && truthy height then
          and_then (and_then (and_then
            (config_set "graphics" "width"
               (str_of_int (default 0 width)) c)
            (config_set "graphics" "height"
               (str_of_int (default 0 height))))
            (config_set "graphics" "minimum_width" MIN_WIDTH))
            (config_set "graphics" "minimum_height" MIN_HEIGHT)
        else Some c in
      and_then (and_then (and_then (and_then (and_then (and_then (and_then
        c1
        (config_set "kivy" "log_level" "critical"))
        (config_set "graphics" "vsync" "1"))
        (config_set "graphics" "multisamples" "0"))
        (config_set "input" "mtdev" ""))
        (config_set "input" "mouse" "mouse,multitouch_on_demand"))
        (config_set "kivy" "exit_on_escape" "0"))
        (config_set "kivy" "window_icon" "")
  end.

Definition configure_for_mobile (c : KivyConfig) : option KivyConfig :=
  if IS_ANDROID platform then
    and_then (and_then (and_then
      (config_remove_option "graphics" "width" c)
      (config_remove_option "graphics" "height"))
      (config_set "kivy" "keyboard_mode" "systemandmulti"))
      (config_set "input" "mouse" "mouse,disable_multitouch")
  else if IS_IOS platform then
    config_set "kivy" "keyboard_mode" "systemandmulti" c
  else Some c.

(** What [chat_ui/app.py] does to the Kivy configuration when imported:
    [configure_kivy()], then [MobileConfig.configure_for_mobile()]. *)
Definition configure_at_import (c : KivyConfig) : option KivyConfig :=
  and_then (configure_kivy c) configure_for_mobile.

End Platform.

Section Samples.

Local Open Scope string_scope.

(** The sections Kivy's own defaults provide. *)
Definition has_sections (c : KivyConfig) : Prop :=
  is_Some (dict_get "graphics" c) /\ is_Some (dict_get "kivy" c)
  /\ is_Some (dict_get "input" c).

(** A sample configuration and sample parameters. *)
Definition config_small : KivyConfig :=
  [("kivy", [("log_level", "info")]);
   ("graphics", [("width", "800"); ("height", "600")]);
   ("input", [("mouse", "mouse")])].

(** One call on the configuration, and a sequence of such calls. *)
Inductive config_op :=
  | op_set (section option_name value : string)
  | op_remove (section option_name : string).

Definition op_target (op : config_op) : string * string :=
  match op with
  | op_set s o _ => (s, o)
  | op_remove s o => (s, o)
  end.

Definition apply_op (op : config_op) (c : KivyConfig) : option KivyConfig :=
  match op with
  | op_set s o v => config_set s o v c
  | op_remove s o => config_remove_option s o c
  end.

Definition run_ops (ops : list config_op) (c : KivyConfig)
    : option KivyConfig :=
  foldl (fun acc op => and_then acc (apply_op op)) (Some c) ops.

(** The value of option [o] of section [s] after the calls, from its
    value before. *)
Definition effect (ops : list config_op) (s o : string)
    (old : option string) : option string :=
  foldl (fun acc op =>
           if decide (op_target op = (s, o)) then
             match op with
             | op_set _ _ v => Some v
             | op_remove _ _ => None
             end
           else acc) old ops.

(** The calls of [configure_kivy] for a window size, and those of
    [configure_for_mobile]. *)
Definition kivy_ops (MIN_WIDTH MIN_HEIGHT : string)
    (width height : option Z) : list config_op :=
  (if truthy width && truthy height then
     [op_set "graphics" "width" (str_of_int (default 0%Z width));
      op_set "graphics" "height" (str_of_int (default 0%Z height));
      op_set "graphics" "minimum_width" MIN_WIDTH;
      op_set "graphics" "minimum_height" MIN_HEIGHT]
   else [])
  ++ [op_set "kivy" "log_level" "critical";
      op_set "graphics" "vsync" "1";
      op_set "graphics" "multisamples" "0";
      op_set "input" "mtdev" "";
      op_set "input" "mouse" "mouse,multitouch_on_demand";
      op_set "kivy" "exit_on_escape" "0";
      op_set "kivy" "window_icon" ""].

Definition mobile_ops (platform : Platform) : list config_op :=
  if IS_ANDROID platform then
    [op_remove "graphics" "width"; op_remove "graphics" "height";
     op_set "kivy" "keyboard_mode" "systemandmulti";
     op_set "input" "mouse" "mouse,disable_multitouch"]
  else if IS_IOS platform then
    [op_set "kivy" "keyboard_mode" "systemandmulti"]
  else [].

(** The options the start-up configuration may write or remove. *)
Definition touched_options : list (string * string) :=
  [("graphics", "width"); ("graphics", "height");
   ("graphics", "minimum_width"); ("graphics", "minimum_height");
   ("kivy", "log_level"); ("graphics", "vsync");
   ("graphics", "multisamples"); ("input", "mtdev"); ("input", "mouse");
   ("kivy", "exit_on_escape"); ("kivy", "window_icon");
   ("kivy", "keyboard_mode")].

Definition getenv_none (name : string) : option string := None.

Definition int_of_str_sample (s : string) : option Z :=
  if decide (s = "400") then Some 400
  else if decide (s = "600") then Some 600
  else None.

End Samples.

(** ** More sample runs *)

(** A reply has started to stream: the user sent "a", the chunk "x"
    arrived and was flushed into a new bubble. *)
Definition reply_streaming : list input :=
  boot_online
  ++ [UserTypes (lit "a"); UserSends; Worker 0 (W_chunk (lit "x"));
      Tick 50; ClockFire 1].

(** The probe answers that there is no backend; the user sends "hi" and
    the monitor reads a disconnected client. *)
Definition probe_fails_then_send : list input :=
  [Tick 1000; ClockFire 0; ClockFire 0;
   Worker 0 (W_test_result (Some false)); ClockFire 0; ClockFire 0;
   UserTypes (lit "hi"); UserSends; Monitor (Some DISCONNECTED)].

(** ** Strings *)

Lemma lstrip_blank (s : str) : forallb isspace s = true -> lstrip s = [].
Proof.
  induction s as [|c s IH]; simpl; [done|].
  intros [Hc Hs]%andb_true_iff. rewrite Hc. auto.
Qed.

Lemma strip_blank (s : str) : forallb isspace s = true -> strip s = [].
Proof.
  intros H. unfold strip, rstrip. by rewrite (lstrip_blank s H).
Qed.

(** Conversely, [strip] returns the empty string only on blank input. *)
Lemma lstrip_nil_blank (s : str) : lstrip s = [] -> forallb isspace s = true.
Proof.
  induction s as [|c s IH]; simpl; [done|].
  destruct (isspace c); [auto|done].
Qed.

Lemma strip_nil_blank (s : str) : strip s = [] -> forallb isspace s = true.
Proof.
  unfold strip, rstrip. intros H.
  assert (Hr : lstrip (rev (lstrip s)) = []).
  { apply (f_equal (@rev N)) in H. by rewrite rev_involutive in H. }
  apply lstrip_nil_blank in Hr.
  assert (Hl : forallb isspace (lstrip s) = true).
  { rewrite forallb_forall in Hr |- *. intros x Hx. apply Hr.
    by apply in_rev in Hx. }
  clear H Hr. induction s as [|c s IH]; simpl in *; [done|].
  destruct (isspace c) eqn:Hc; [auto|].
  simpl in Hl. by rewrite Hc in Hl.
Qed.

(** ** The history: trimming *)

Lemma list_remove_app (w : ref) (l1 l2 : list ref) :
  w ∉ l1 -> list_remove w (l1 ++ l2) = l1 ++ list_remove w l2.
Proof.
  induction l1 as [|x l1 IH]; simpl; [done|].
  intros Hw. apply not_elem_of_cons in Hw as [Hx Hw].
  destruct (decide (x = w)); [congruence|]. by rewrite IH.
Qed.

Lemma drop_oldest_take (l : list ref) :
  NoDup l -> drop_oldest l = take (length l - 1) l.
Proof.
  intros Hnd. unfold drop_oldest. destruct (last l) as [w|] eqn:Hl.
  - apply last_Some in Hl as [l' ->].
    apply NoDup_app in Hnd as (_ & Hdis & _).
    rewrite list_remove_app.
    + simpl. destruct (decide (w = w)); [|done].
      rewrite length_app. simpl.
      replace (length l' + 1 - 1)%nat with (length l') by lia.
      by rewrite take_app_length, app_nil_r.
    + intros Hin. apply (Hdis w Hin). by apply list_elem_of_singleton.
  - apply last_None in Hl. by subst.
Qed.

Lemma iter_drop_oldest (n : nat) (l : list ref) :
  NoDup l -> Nat.iter n drop_oldest l = take (length l - n) l.
Proof.
  intros Hnd. induction n as [|n IH]; simpl.
  - replace (length l - 0)%nat with (length l) by lia.
    by rewrite firstn_all.
  - rewrite IH. rewrite drop_oldest_take.
    + rewrite length_take, take_take. f_equal. lia.
    + apply (sublist_NoDup _ l); [done|apply sublist_take].
Qed.

Lemma set_children_id (st : Screen) : set_children (children st) st = st.
Proof. by destruct st. Qed.

Lemma iter_remove_oldest (n : nat) (st : Screen) :
  Nat.iter n remove_oldest st
  = set_children (Nat.iter n drop_oldest (children st)) st.
Proof.
  induction n as [|n IH]; simpl.
  - by rewrite set_children_id.
  - rewrite IH. unfold remove_oldest, drop_oldest. simpl.
    by destruct (last _).
Qed.

(** [_cleanup_old_messages] keeps the [max_messages] newest children and
    touches nothing else. *)
Lemma cleanup_spec (cfg : Config) (st : Screen) :
  NoDup (children st) -> 0 <= max_messages cfg ->
  _cleanup_old_messages cfg st
  = set_children (take (Z.to_nat (max_messages cfg)) (children st)) st.
Proof.
  intros Hnd Hmax. unfold _cleanup_old_messages.
  destruct (max_messages cfg <? _) eqn:Hlt.
  - apply Z.ltb_lt in Hlt.
    rewrite iter_remove_oldest, iter_drop_oldest by done.
    do 2 f_equal. lia.
  - apply Z.ltb_ge in Hlt. rewrite take_ge by lia.
    by rewrite set_children_id.
Qed.

(** ** The clock queue *)

Lemma pending_count_snoc (cb cb' : task) (d : Z) (q : list (Z * task)) :
  pending_count cb (q ++ [(d, cb')])
  = (pending_count cb q + if decide (cb' = cb) then 1 else 0)%nat.
Proof.
  unfold pending_count. rewrite filter_app, length_app. f_equal.
  rewrite filter_cons, filter_nil. simpl. by destruct (decide (cb' = cb)).
Qed.

Lemma pending_count_delete (cb cb' : task) (d : Z) (i : nat)
    (q : list (Z * task)) :
  q !! i = Some (d, cb') ->
  pending_count cb q
  = (pending_count cb (delete i q) + if decide (cb' = cb) then 1 else 0)%nat.
Proof.
  revert i. induction q as [|[d0 c0] q IH]; intros [|i] Hi; try done.
  - simpl in Hi. injection Hi as -> ->. unfold pending_count. simpl.
    rewrite filter_cons. simpl. destruct (decide (cb' = cb)); simpl; lia.
  - simpl in Hi. specialize (IH i Hi). unfold pending_count in *. simpl.
    rewrite !filter_cons. simpl. destruct (decide (c0 = cb)); simpl; lia.
Qed.

Lemma find_task_lookup (cb : task) (q : list (Z * task)) (i : nat) (d : Z) :
  find_task cb q = Some (i, d) -> q !! i = Some (d, cb).
Proof.
  revert i. induction q as [|[d0 c0] q IH]; intros i; simpl; [done|].
  destruct (decide (c0 = cb)) as [->|Hne].
  - by intros [= <- <-].
  - destruct (find_task cb q) as [[j e]|]; [|done].
    intros [= <- <-]. by apply IH.
Qed.

Lemma find_task_none (cb : task) (q : list (Z * task)) :
  find_task cb q = None -> pending_count cb q = 0%nat.
Proof.
  induction q as [|[d0 c0] q IH]; simpl; [done|].
  destruct (decide (c0 = cb)) as [->|Hne]; [done|].
  destruct (find_task cb q) as [[j e]|]; [done|]. intros _.
  unfold pending_count in *. rewrite filter_cons. simpl.
  destruct (decide (c0 = cb)); [done|]. by apply IH.
Qed.

(** ** The scroll throttle *)

Lemma scroll_to_bottom_outcome (cfg : Config) (force : bool) (st : Screen) :
  scroll_outcome cfg force st (_scroll_to_bottom cfg force st).
Proof.
  unfold _scroll_to_bottom.
  destruct force; simpl; [constructor; by left|].
  destruct (_ <=? _) eqn:Hle.
  - constructor. right. by apply Z.leb_le.
  - apply Z.leb_gt in Hle.
    destruct (_scroll_scheduled st) eqn:Hs; simpl; by constructor.
Qed.

Lemma scroll_to_bottom_frame (cfg : Config) (f : bool) (st : Screen) :
  let st' := _scroll_to_bottom cfg f st in
  heap st' = heap st /\ children st' = children st
  /\ current_bubble st' = current_bubble st
  /\ backend_available st' = backend_available st
  /\ status_label st' = status_label st
  /\ text_input st' = text_input st
  /\ text_input_focus st' = text_input_focus st
  /\ _pending_chunks st' = _pending_chunks st
  /\ _text_update_scheduled st' = _text_update_scheduled st
  /\ threads st' = threads st /\ now st' = now st
  /\ batches st' = batches st.
Proof.
  intros st'. unfold st'.
  by destruct (scroll_to_bottom_outcome cfg f st).
Qed.

(** ** Invariants of the running screen *)

Lemma cleanup_children_only (cfg : Config) (st : Screen) :
  exists l, _cleanup_old_messages cfg st = set_children l st.
Proof.
  unfold _cleanup_old_messages. destruct (_ <? _).
  - eexists. apply iter_remove_oldest.
  - exists (children st). by rewrite set_children_id.
Qed.

Lemma leaves_coalescer_refl (st : Screen) : leaves_coalescer st st.
Proof. by repeat split. Qed.

Lemma leaves_coalescer_trans (st1 st2 st3 : Screen) :
  leaves_coalescer st1 st2 -> leaves_coalescer st2 st3 ->
  leaves_coalescer st1 st3.
Proof.
  intros (Hp & Hf & Hb & Hn & Hc & Hs) (Hp' & Hf' & Hb' & Hn' & Hc' & Hs').
  repeat split; try congruence; [|tauto].
  intros cb Hcb. rewrite Hc', Hc; done.
Qed.

(** A step that keeps the clock queue and every scheduling field. *)
Lemma leaves_coalescer_same (st st' : Screen) :
  clock st' = clock st ->
  _scroll_scheduled st' = _scroll_scheduled st ->
  _pending_chunks st' = _pending_chunks st ->
  _text_update_scheduled st' = _text_update_scheduled st ->
  batches st' = batches st -> now st' = now st ->
  leaves_coalescer st st'.
Proof.
  intros Hc Hs Hp Hf Hb Hn. repeat split; try done.
  - intros cb _. by rewrite Hc.
  - unfold scroll_ok. by rewrite Hc, Hs.
Qed.

Lemma scroll_to_bottom_leaves (cfg : Config) (f : bool) (st : Screen) :
  leaves_coalescer st (_scroll_to_bottom cfg f st).
Proof.
  destruct (scroll_to_bottom_outcome cfg f st) as [_|_ _ Hs|_ _ Hs].
  - by apply leaves_coalescer_same.
  - repeat split; simpl; try done.
    + intros cb Hcb. rewrite pending_count_snoc.
      destruct (decide (_ = cb)); [congruence|lia].
    + unfold scroll_ok. simpl. rewrite pending_count_snoc, Hs. simpl.
      intros ->. done.
  - apply leaves_coalescer_refl.
Qed.

Lemma cleanup_leaves (cfg : Config) (st : Screen) :
  leaves_coalescer st (_cleanup_old_messages cfg st).
Proof.
  destruct (cleanup_children_only cfg st) as [l ->].
  by apply leaves_coalescer_same.
Qed.

Lemma show_demo_response_leaves (cfg : Config) (m : str) (st : Screen) :
  leaves_coalescer st (_show_demo_response cfg m st).
Proof.
  unfold _show_demo_response, new_bubble. cbv iota beta zeta.
  eapply leaves_coalescer_trans; [|apply scroll_to_bottom_leaves].
  by apply leaves_coalescer_same.
Qed.

Lemma send_message_leaves (cfg : Config) (st : Screen) :
  leaves_coalescer st (send_message cfg st).
Proof.
  unfold send_message. destruct (strip _) as [|c m];
    [apply leaves_coalescer_refl|].
  cbv zeta. unfold new_bubble. cbv iota beta.
  set (st3 := add_widget _ _).
  assert (H3 : leaves_coalescer st st3) by by apply leaves_coalescer_same.
  pose proof (scroll_to_bottom_leaves cfg false st3) as H4.
  pose proof (cleanup_leaves cfg (_scroll_to_bottom cfg false st3)) as H5.
  set (st5 := _cleanup_old_messages cfg _) in *.
  assert (H05 : leaves_coalescer st st5)
    by eauto using leaves_coalescer_trans.
  destruct (backend_available st5).
  - eapply leaves_coalescer_trans; [exact H05|].
    by apply leaves_coalescer_same.
  - eapply leaves_coalescer_trans; [exact H05|].
    apply show_demo_response_leaves.
Qed.

Lemma show_error_message_leaves (cfg : Config) (m : str) (st : Screen) :
  leaves_coalescer st (_show_error_message cfg m st).
Proof.
  unfold _show_error_message, new_bubble. cbv iota beta zeta.
  set (st2 := add_widget _ _).
  apply (leaves_coalescer_trans _ (_scroll_to_bottom cfg false st2)).
  - eapply leaves_coalescer_trans; [|apply scroll_to_bottom_leaves].
    by apply leaves_coalescer_same.
  - by apply leaves_coalescer_same.
Qed.

Lemma monitor_leaves (cfg : Config) (cs : option ConnectionState)
    (st : Screen) :
  leaves_coalescer st (_monitor_connection_state cfg cs st).
Proof.
  unfold _monitor_connection_state.
  destruct cs; repeat case_match; by apply leaves_coalescer_same.
Qed.

(** [_append_chunk_batch] records the batch and otherwise leaves the
    coalescer alone. *)
Lemma append_chunk_batch_leaves (cfg : Config) (t : str) (st : Screen) :
  leaves_coalescer (set_batches (batches st ++ [t]) st)
    (_append_chunk_batch cfg t st).
Proof.
  unfold _append_chunk_batch, update_text, new_bubble. cbv zeta. simpl.
  destruct (current_bubble st); simpl; repeat case_match;
    (eapply leaves_coalescer_trans; [|apply scroll_to_bottom_leaves]);
    by apply leaves_coalescer_same.
Qed.

Create HintDb screen.

#[local] Hint Resolve leaves_coalescer_refl scroll_to_bottom_leaves
  cleanup_leaves show_demo_response_leaves send_message_leaves
  show_error_message_leaves monitor_leaves : screen.

Lemma leaves_coalescer_wf (st st' : Screen) :
  leaves_coalescer st st' -> wf_clock st -> wf_clock st'.
Proof.
  intros (Hp & Hf & Hb & Hn & Hc & Hs) (HS & HF & HP).
  split; [tauto|]. split.
  - unfold flush_ok. rewrite Hc, Hf; done.
  - rewrite Hp, Hf. done.
Qed.

Lemma leaves_coalescer_streamed (st st' : Screen) :
  leaves_coalescer st st' -> streamed st' = streamed st.
Proof. intros (Hp & Hf & Hb & _). unfold streamed. by rewrite Hp, Hb. Qed.

(** ** The history: capacity *)

Lemma send_message_nonblank (cfg : Config) (st : Screen) (c : N) (m : str) :
  strip (text_input st) = c :: m ->
  send_message cfg st
  = let st1 := set_text_input [] st in
    let st2 := set_heap (heap st ++ [mkBubble (c :: m) true]) st1 in
    let st3 := add_widget (length (heap st)) st2 in
    let st4 := _scroll_to_bottom cfg false st3 in
    let st5 := _cleanup_old_messages cfg st4 in
    if backend_available st5 then _send_to_backend (c :: m) st5
    else _show_demo_response cfg (c :: m) st5.
Proof. intros H. unfold send_message. by rewrite H. Qed.

Lemma fresh_not_child (st : Screen) :
  wf_history st -> NoDup (length (heap st) :: children st).
Proof.
  intros (Hnd & Hall & _). apply NoDup_cons. split; [|done].
  intros Hin. rewrite Forall_forall in Hall. specialize (Hall _ Hin). lia.
Qed.

(** C2, as amended: the append of the user message in [send_message] is
    followed by a cleanup after which at most [max_messages] messages are
    stored, and they are the most recently inserted ones in their order
    (newest first in [children]); when the backend is available this is
    the history [send_message] returns. *)
Theorem C2_cleanup_after_user_append (cfg : Config) (st : Screen)
    (c : N) (m : str) :
  wf_history st -> 0 <= max_messages cfg ->
  strip (text_input st) = c :: m ->
  let w := length (heap st) in
  let kept := take (Z.to_nat (max_messages cfg)) (w :: children st) in
  children (_cleanup_old_messages cfg (add_widget w st)) = kept
  /\ Z.of_nat (length kept) <= max_messages cfg
  /\ (backend_available st = true ->
      children (send_message cfg st) = kept
      /\ heap (send_message cfg st) = heap st ++ [mkBubble (c :: m) true]).
Proof.
  intros Hwf Hmax Hs w kept. pose proof (fresh_not_child st Hwf) as Hnd.
  split; [|split].
  - by rewrite cleanup_spec.
  - unfold kept. rewrite length_take. lia.
  - intros Hb. rewrite (send_message_nonblank cfg st c m Hs). cbv zeta.
    set (st3 := add_widget _ _).
    destruct (scroll_to_bottom_frame cfg false st3)
      as (Hh & Hc & _ & Hba & _).
    rewrite cleanup_spec; [|by rewrite Hc|done]. simpl.
    rewrite Hba. replace (backend_available st3) with true by done.
    simpl. by rewrite Hc, Hh.
Qed.

Lemma C2_cleanup_after_user_append_witness :
  let st := run cfg_small lower_ascii streaming_then_two_sends
              (init cfg_small 0) in
  children st = [3%nat; 2%nat]
  /\ children (send_message cfg_small st) = [4%nat; 3%nat].
Proof.
  intros st. split; [by vm_compute|].
  assert (Hwf : wf_history st).
  { split; [|split].
    - apply (bool_decide_unpack _). by vm_compute.
    - apply (bool_decide_unpack _). by vm_compute.
    - intros b Hb. vm_compute in Hb. injection Hb as <-. vm_compute. lia. }
  exact (proj1 (proj2 (proj2
    (C2_cleanup_after_user_append cfg_small st 99%N [] Hwf
       ltac:(by vm_compute) ltac:(by vm_compute))) ltac:(by vm_compute))).
Defined.

(** C2 as stated fails: the demo response is appended after the cleanup,
    so a send with two messages of capacity leaves three in the history. *)
Lemma C2_history_exceeds_capacity :
  let st := run cfg_small lower_ascii [UserTypes (lit "hi"); UserSends]
              (init cfg_small 0) in
  max_messages cfg_small = 2
  /\ children st = [2%nat; 1%nat; 0%nat]
  /\ ~ (Z.of_nat (length (children st)) <= max_messages cfg_small).
Proof. vm_compute. repeat split; done. Qed.

(** C6, as amended: [_cleanup_old_messages] removes from the oldest end
    only (the survivors are the [max_messages] newest children) and does
    not touch the objects or [current_bubble]; the bubble being streamed
    into stays in the history exactly when it is among the [max_messages]
    newest children. *)
Theorem C6_cleanup_oldest_end_only (cfg : Config) (st : Screen) (b : ref) :
  NoDup (children st) -> 0 <= max_messages cfg ->
  current_bubble st = Some b ->
  let st' := _cleanup_old_messages cfg st in
  children st' = take (Z.to_nat (max_messages cfg)) (children st)
  /\ heap st' = heap st
  /\ current_bubble st' = Some b
  /\ (b ∈ children st' <->
      exists i : nat,
        children st !! i = Some b /\ Z.of_nat i < max_messages cfg).
Proof.
  intros Hnd Hmax Hb st'. unfold st'. rewrite cleanup_spec by done. simpl.
  repeat split; try done.
  - intros (i & Hi)%list_elem_of_lookup.
    apply lookup_take_Some in Hi as [Hi Hlt]. exists i. split; [done|lia].
  - intros (i & Hi & Hlt). apply list_elem_of_lookup. exists i.
    apply lookup_take_Some. split; [done|lia].
Qed.

Lemma C6_cleanup_oldest_end_only_witness :
  let st := run cfg_small lower_ascii streaming_then_two_sends
              (init cfg_small 0) in
  children (_cleanup_old_messages cfg_small st) = [3%nat; 2%nat].
Proof.
  intros st.
  assert (Hnd : NoDup (children st)).
  { apply (bool_decide_unpack _). by vm_compute. }
  exact (proj1 (C6_cleanup_oldest_end_only cfg_small st 2%nat Hnd
                  ltac:(by vm_compute) eq_refl)).
Defined.

(** C6 as stated fails: with a capacity of two, the bubble being streamed
    into (object 2) is evicted by the cleanup of the second send that
    follows it, while [current_bubble] still points to it. *)
Lemma C6_streaming_bubble_evicted :
  let st := run cfg_small lower_ascii streaming_then_two_sends
              (init cfg_small 0) in
  let user_bubble := length (heap st) in
  let mid :=
    add_widget user_bubble
      (set_heap (heap st ++ [mkBubble (lit "c") true]) st) in
  current_bubble st = Some 2%nat
  /\ children mid = [4%nat; 3%nat; 2%nat]
  /\ children (_cleanup_old_messages cfg_small mid) = [4%nat; 3%nat]
  /\ children (send_message cfg_small st) = [4%nat; 3%nat]
  /\ current_bubble (send_message cfg_small st) = Some 2%nat.
Proof. by vm_compute. Qed.

(** ** Every step keeps the clock queue well formed *)

Lemma on_chunk_wf_clock (cfg : Config) (c : str) (st : Screen) :
  wf_clock st -> wf_clock (_on_chunk cfg c st).
Proof.
  intros (HS & HF & HP). unfold _on_chunk. cbv zeta. simpl.
  destruct (_text_update_scheduled st) eqn:Hf; simpl.
  - repeat split; try done. simpl. by rewrite Hf.
  - unfold wf_clock, scroll_ok, flush_ok in *. simpl.
    rewrite !pending_count_snoc, HS, HF, Hf. simpl. done.
Qed.

Lemma on_chunk_streamed (cfg : Config) (c : str) (st : Screen) :
  streamed (_on_chunk cfg c st) = streamed st ++ c.
Proof.
  unfold _on_chunk, streamed. cbv zeta. simpl.
  destruct (negb _); simpl; rewrite concat_app; simpl;
    by rewrite app_nil_r, app_assoc.
Qed.

Lemma process_batched_chunks_streamed (cfg : Config) (st : Screen) :
  streamed (_process_batched_chunks cfg st) = streamed st
  /\ _pending_chunks (_process_batched_chunks cfg st) = []
  /\ _text_update_scheduled (_process_batched_chunks cfg st) = false.
Proof.
  unfold _process_batched_chunks.
  destruct (_pending_chunks st) as [|c l] eqn:Hp; [by rewrite <- Hp|].
  cbv zeta. set (st2 := set_pending_chunks [] st).
  destruct (append_chunk_batch_leaves cfg (c ++ concat l) st2)
    as (Hp' & _ & Hb' & _).
  unfold streamed. simpl in *. rewrite Hp', Hb', Hp. simpl.
  rewrite concat_app. simpl. by rewrite !app_nil_r.
Qed.

(** Running the flush callback after the clock took it off the queue. *)
Lemma process_batched_chunks_wf_clock (cfg : Config) (st : Screen) :
  scroll_ok st ->
  pending_count T_process_batched_chunks (clock st) = 0%nat ->
  wf_clock (_process_batched_chunks cfg st).
Proof.
  intros HS HF. unfold _process_batched_chunks.
  destruct (_pending_chunks st) as [|c l] eqn:Hp; [done|].
  cbv zeta. set (st2 := set_pending_chunks [] st).
  destruct (append_chunk_batch_leaves cfg (c ++ concat l) st2)
    as (Hp' & _ & _ & _ & Hc' & HS').
  split; [by apply HS'|]. split.
  - unfold flush_ok. simpl. rewrite Hc' by done. done.
  - simpl. by rewrite Hp'.
Qed.

Lemma clock_fire_wf_clock (cfg : Config) (i : nat) (st : Screen) :
  wf_clock st -> wf_clock (clock_fire cfg i st).
Proof.
  intros Hwf. unfold clock_fire.
  destruct (clock st !! i) as [[due cb]|] eqn:Hi; [|done].
  destruct (due <=? now st); [|done].
  set (st1 := set_clock (delete i (clock st)) st).
  destruct Hwf as (HS & HF & HP).
  pose proof (pending_count_delete T_do_throttled_scroll cb due i _ Hi)
    as HdS.
  pose proof (pending_count_delete T_process_batched_chunks cb due i _ Hi)
    as HdF.
  unfold scroll_ok in HS. unfold flush_ok in HF.
  destruct cb; simpl in HdS, HdF;
    try (assert (Hwf1 : wf_clock st1)
           by (split; [|split];
               [unfold scroll_ok|unfold flush_ok|]; simpl; try done; lia)).
  - cbn [run_task]. apply (leaves_coalescer_wf st1); auto with screen.
  - done.
  - simpl. unfold _do_throttled_scroll. cbv zeta.
    destruct (_scroll_scheduled st) eqn:Hs; simpl in HS; [|lia].
    split; [|split]; [unfold scroll_ok|unfold flush_ok|]; simpl;
      try done; lia.
  - simpl. destruct (_text_update_scheduled st) eqn:Hf; simpl in HF; [|lia].
    apply process_batched_chunks_wf_clock.
    + unfold scroll_ok. simpl. lia.
    + simpl. lia.
  - done.
  - done.
  - cbn [run_task]. apply (leaves_coalescer_wf st1); auto with screen.
  - done.
Qed.

Lemma clock_fire_streamed (cfg : Config) (i : nat) (st : Screen) :
  streamed (clock_fire cfg i st) = streamed st.
Proof.
  unfold clock_fire.
  destruct (clock st !! i) as [[due cb]|] eqn:Hi; [|done].
  destruct (due <=? now st); [|done].
  set (st1 := set_clock (delete i (clock st)) st).
  change (streamed st) with (streamed st1).
  destruct cb; cbn [run_task].
  - apply leaves_coalescer_streamed; auto with screen.
  - done.
  - done.
  - apply process_batched_chunks_streamed.
  - done.
  - done.
  - apply leaves_coalescer_streamed; auto with screen.
  - done.
Qed.

Lemma worker_step_wf_clock (cfg : Config) (lower : str -> str) (i : nat)
    (a : worker_action) (st : Screen) :
  wf_clock st -> wf_clock (worker_step cfg lower i a st).
Proof.
  intros Hwf. unfold worker_step.
  destruct (threads st !! i) as [[|m]|]; destruct a as [[[|]|]| | |];
    try done; try (by apply on_chunk_wf_clock);
    destruct Hwf as (HS & HF & HP);
    unfold wf_clock, scroll_ok, flush_ok in *; simpl;
    rewrite ?pending_count_snoc; simpl; rewrite ?Nat.add_0_r; done.
Qed.

Lemma worker_step_streamed (cfg : Config) (lower : str -> str) (i : nat)
    (a : worker_action) (st : Screen) :
  streamed (worker_step cfg lower i a st)
  = streamed st ++ concat (offered_by st (Worker i a)).
Proof.
  unfold worker_step, offered_by.
  destruct (threads st !! i) as [[|m]|]; destruct a as [[[|]|]| | |];
    simpl; rewrite ?app_nil_r; try done.
  apply on_chunk_streamed.
Qed.

Lemma step_wf_clock (cfg : Config) (lower : str -> str) (st : Screen)
    (ev : input) :
  wf_clock st -> wf_clock (step cfg lower st ev).
Proof.
  intros Hwf. destruct ev as [d|i|cs|s| |i a]; simpl.
  - done.
  - by apply clock_fire_wf_clock.
  - apply (leaves_coalescer_wf st); auto with screen.
  - done.
  - apply (leaves_coalescer_wf st); auto with screen.
  - by apply worker_step_wf_clock.
Qed.

Lemma step_streamed (cfg : Config) (lower : str -> str) (st : Screen)
    (ev : input) :
  streamed (step cfg lower st ev) = streamed st ++ concat (offered_by st ev).
Proof.
  destruct ev as [d|i|cs|s| |i a];
    try (simpl; rewrite app_nil_r).
  - done.
  - apply clock_fire_streamed.
  - apply leaves_coalescer_streamed; auto with screen.
  - done.
  - apply leaves_coalescer_streamed; auto with screen.
  - apply worker_step_streamed.
Qed.

Lemma run_wf_clock (cfg : Config) (lower : str -> str) (evs : list input)
    (st : Screen) :
  wf_clock st -> wf_clock (run cfg lower evs st).
Proof.
  unfold run. revert st.
  induction evs as [|ev evs IH]; intros st Hwf; [done|].
  simpl. by apply IH, step_wf_clock.
Qed.

Lemma run_streamed (cfg : Config) (lower : str -> str) (evs : list input)
    (st : Screen) :
  streamed (run cfg lower evs st)
  = streamed st ++ concat (offered cfg lower evs st).
Proof.
  unfold run. revert st. induction evs as [|ev evs IH]; intros st; simpl.
  - by rewrite app_nil_r.
  - rewrite IH, step_streamed, concat_app. by rewrite app_assoc.
Qed.

Lemma init_wf_clock (cfg : Config) (t0 : Z) : wf_clock (init cfg t0).
Proof. by repeat split. Qed.

(** ** The chunk coalescer *)

(** Closes [exists new, l = l ++ new] when nothing was added. *)
Ltac no_new_batch := exists []; rewrite app_nil_r.

Lemma leaves_coalescer_batches (st st' : Screen) :
  leaves_coalescer st st' -> batches st' = batches st.
Proof. by intros (_ & _ & Hb & _). Qed.

Lemma process_batched_chunks_batches (cfg : Config) (st : Screen) :
  batches (_process_batched_chunks cfg st)
  = batches st
    ++ match _pending_chunks st with
       | [] => []
       | _ :: _ => [concat (_pending_chunks st)]
       end.
Proof.
  unfold _process_batched_chunks.
  destruct (_pending_chunks st) as [|c l] eqn:Hp;
    [simpl; by rewrite app_nil_r|].
  cbv zeta. set (st2 := set_pending_chunks [] st).
  destruct (append_chunk_batch_leaves cfg (c ++ concat l) st2)
    as (_ & _ & Hb' & _).
  simpl in *. by rewrite Hb'.
Qed.

Lemma clock_fire_batches (cfg : Config) (i : nat) (st : Screen) :
  exists new, batches (clock_fire cfg i st) = batches st ++ new.
Proof.
  unfold clock_fire.
  destruct (clock st !! i) as [[due cb]|] eqn:Hi;
    [|by no_new_batch].
  destruct (due <=? now st); [|by no_new_batch].
  set (st1 := set_clock (delete i (clock st)) st).
  change (batches st) with (batches st1). clearbody st1.
  destruct cb; cbn [run_task].
  - no_new_batch. apply leaves_coalescer_batches, scroll_to_bottom_leaves.
  - by no_new_batch.
  - by no_new_batch.
  - eexists. apply process_batched_chunks_batches.
  - by no_new_batch.
  - by no_new_batch.
  - no_new_batch. apply leaves_coalescer_batches, show_error_message_leaves.
  - by no_new_batch.
Qed.

Lemma step_batches (cfg : Config) (lower : str -> str) (st : Screen)
    (ev : input) :
  exists new, batches (step cfg lower st ev) = batches st ++ new.
Proof.
  destruct ev as [d|i|cs|s| |i a]; simpl.
  - by no_new_batch.
  - apply clock_fire_batches.
  - no_new_batch. apply leaves_coalescer_batches, monitor_leaves.
  - by no_new_batch.
  - no_new_batch. apply leaves_coalescer_batches, send_message_leaves.
  - no_new_batch. unfold worker_step, _on_chunk.
    destruct (threads st !! i) as [[|m]|]; destruct a as [[[|]|]| | |];
      try done.
    cbv zeta. by destruct (negb _).
Qed.

Lemma run_batches (cfg : Config) (lower : str -> str) (evs : list input)
    (st : Screen) :
  exists new, batches (run cfg lower evs st) = batches st ++ new.
Proof.
  unfold run. revert st. induction evs as [|ev evs IH]; intros st; simpl.
  - by no_new_batch.
  - destruct (step_batches cfg lower st ev) as [n1 H1].
    destruct (IH (step cfg lower st ev)) as [n2 H2].
    exists (n1 ++ n2). by rewrite H2, H1, app_assoc.
Qed.

(** Once the scheduled flush has run, nothing waits in the buffer. *)
Lemma await_flush_spec (cfg : Config) (st : Screen) :
  wf_clock st ->
  streamed (await_flush cfg st) = streamed st
  /\ _pending_chunks (await_flush cfg st) = []
  /\ exists new, batches (await_flush cfg st) = batches st ++ new.
Proof.
  intros (HS & HF & HP). unfold await_flush.
  destruct (find_task _ _) as [[i due]|] eqn:Hfind.
  - apply find_task_lookup in Hfind.
    set (st1 := advance _ st). split; [|split].
    + rewrite clock_fire_streamed. done.
    + unfold clock_fire. change (clock st1) with (clock st).
      rewrite Hfind.
      replace (due <=? now st1) with true
        by (symmetry; apply Z.leb_le; unfold st1; simpl; lia).
      simpl. apply process_batched_chunks_streamed.
    + destruct (clock_fire_batches cfg i st1) as [new Hn]. by exists new.
  - apply find_task_none in Hfind. unfold flush_ok in HF.
    rewrite Hfind in HF.
    destruct (_text_update_scheduled st); [done|].
    repeat split; [by apply HP|]. by no_new_batch.
Qed.


(** ** One flush, one batch *)

Lemma find_task_snoc (cb : task) (d : Z) (q : list (Z * task)) :
  pending_count cb q = 0%nat ->
  find_task cb (q ++ [(d, cb)]) = Some (length q, d).
Proof.
  induction q as [|[d0 c0] q IH]; simpl.
  - intros _. by destruct (decide (cb = cb)).
  - unfold pending_count. rewrite filter_cons. simpl.
    destruct (decide (c0 = cb)); [done|]. intros H.
    unfold pending_count in IH. by rewrite IH.
Qed.

(** The flush is the newest entry of the queue: it becomes due and runs. *)
Lemma await_flush_newest (cfg : Config) (st : Screen) (q : list (Z * task))
    (due : Z) :
  clock st = q ++ [(due, T_process_batched_chunks)] ->
  pending_count T_process_batched_chunks q = 0%nat ->
  await_flush cfg st
  = _process_batched_chunks cfg
      (set_clock q (advance (Z.to_nat (due - now st)) st)).
Proof.
  intros Hq Hc. unfold await_flush, clock_fire.
  rewrite Hq, (find_task_snoc _ _ _ Hc). simpl clock.
  rewrite Hq, list_lookup_middle by done.
  replace (due <=? _) with true
    by (symmetry; apply Z.leb_le; simpl; lia).
  by rewrite delete_middle, app_nil_r.
Qed.




(** ** Steps without effect *)

(** C8: with an empty buffer the flush only clears its flag: no batch is
    delivered, no bubble is created or changed, nothing is scheduled. *)
Theorem C8_flush_of_empty_buffer_is_noop (cfg : Config) (st : Screen) :
  _pending_chunks st = [] ->
  let st' := _process_batched_chunks cfg st in
  st' = set_text_update_scheduled false st
  /\ batches st' = batches st
  /\ heap st' = heap st /\ children st' = children st
  /\ current_bubble st' = current_bubble st
  /\ clock st' = clock st /\ scrolls st' = scrolls st
  /\ _text_update_scheduled st' = false.
Proof.
  intros Hp st'. unfold st', _process_batched_chunks. by rewrite Hp.
Qed.

Lemma C8_flush_of_empty_buffer_is_noop_witness :
  _process_batched_chunks cfg_small (init cfg_small 0) = init cfg_small 0.
Proof.
  exact (proj1
    (C8_flush_of_empty_buffer_is_noop cfg_small (init cfg_small 0)
       eq_refl)).
Defined.

(** C10: when the input field is empty or holds only whitespace,
    [send_message] returns the screen as it was: the field is not
    cleared, no bubble is added, no thread is started and no demo
    response is shown. *)
Theorem C10_blank_input_is_ignored (cfg : Config) (st : Screen) :
  forallb isspace (text_input st) = true ->
  send_message cfg st = st.
Proof.
  intros Hb. unfold send_message. by rewrite (strip_blank _ Hb).
Qed.

Lemma C10_blank_input_is_ignored_witness :
  let st := set_text_input (lit "  ") (init cfg_small 0) in
  send_message cfg_small st = st.
Proof.
  exact (C10_blank_input_is_ignored cfg_small
           (set_text_input (lit "  ") (init cfg_small 0)) eq_refl).
Defined.

(** ** The demo fallback *)

(** C4: a message that is not blank, sent while the backend is not
    available, starts no worker thread (so [client.send_message] is not
    called) and puts the demo response, built locally from the message,
    at the newest end of the history, after the user's bubble. *)
Theorem C4_unavailable_backend_demo_response (cfg : Config) (st : Screen)
    (c : N) (m : str) :
  strip (text_input st) = c :: m ->
  backend_available st = false ->
  let st' := send_message cfg st in
  let user_bubble := length (heap st) in
  let ai_bubble := S user_bubble in
  threads st' = threads st
  /\ heap st'
     = heap st ++ [mkBubble (c :: m) true;
                   mkBubble (demo_text (c :: m)) false]
  /\ (exists rest, children st' = ai_bubble :: rest)
  /\ label_text ai_bubble st' = demo_text (c :: m)
  /\ batches st' = batches st.
Proof.
  intros Hs Hb st' user_bubble ai_bubble. unfold st'.
  rewrite (send_message_nonblank cfg st c m Hs). cbv zeta.
  set (st3 := add_widget _ _).
  destruct (scroll_to_bottom_frame cfg false st3)
    as (Hh & _ & _ & Hba & _ & _ & _ & _ & _ & Hth & _ & Hbt).
  destruct (cleanup_children_only cfg (_scroll_to_bottom cfg false st3))
    as [l ->].
  set (st5 := set_children l _).
  assert (Hb5 : backend_available st5 = false) by (simpl; by rewrite Hba).
  assert (Hh5 : heap st5 = heap st ++ [mkBubble (c :: m) true])
    by (simpl; by rewrite Hh).
  rewrite Hb5. unfold _show_demo_response, new_bubble.
  cbv iota beta zeta.
  set (st7 := add_widget _ _).
  destruct (scroll_to_bottom_frame cfg false st7)
    as (Hh7 & Hc7 & _ & _ & _ & _ & _ & _ & _ & Hth7 & _ & Hbt7).
  assert (Hheap : heap (_scroll_to_bottom cfg false st7)
    = heap st ++ [mkBubble (c :: m) true;
                  mkBubble (demo_text (c :: m)) false]).
  { rewrite Hh7. simpl. rewrite Hh. simpl.
    by rewrite <- app_assoc. }
  split; [|split; [|split; [|split]]].
  - rewrite Hth7. simpl. by rewrite Hth.
  - done.
  - rewrite Hc7. simpl. rewrite Hh. simpl. rewrite length_app. simpl.
    replace (length (heap st) + 1)%nat with ai_bubble
      by (unfold ai_bubble, user_bubble; lia).
    by eexists.
  - unfold label_text. rewrite Hheap.
    replace (heap st ++ _)
      with ((heap st ++ [mkBubble (c :: m) true])
            ++ [mkBubble (demo_text (c :: m)) false])
      by (by rewrite <- app_assoc).
    rewrite list_lookup_middle; [done|].
    rewrite length_app. simpl. unfold ai_bubble, user_bubble. lia.
  - rewrite Hbt7. simpl. by rewrite Hbt.
Qed.

Lemma C4_unavailable_backend_demo_response_witness :
  let st := set_text_input (lit "hi") (init cfg_small 0) in
  threads (send_message cfg_small st) = []
  /\ label_text 2%nat (send_message cfg_small st)
     = lit "Demo response to: 'hi'".
Proof.
  pose proof (C4_unavailable_backend_demo_response cfg_small
                (set_text_input (lit "hi") (init cfg_small 0))
                104%N [105%N] eq_refl eq_refl) as H.
  exact (conj (proj1 H) (proj1 (proj2 (proj2 (proj2 H))))).
Defined.

(** ** Streaming into the current bubble *)

Lemma append_chunk_batch_current (cfg : Config) (t : str) (st : Screen)
    (b : ref) (o : ModernBubble) :
  current_bubble st = Some b -> heap st !! b = Some o ->
  let st' := _append_chunk_batch cfg t st in
  current_bubble st' = Some b
  /\ children st' = children st
  /\ heap st' = <[b := mkBubble (text o ++ t) (is_user o)]> (heap st).
Proof.
  intros Hb Ho st'. unfold st', _append_chunk_batch, update_text, label_text.
  cbv zeta. simpl. rewrite Hb. simpl. rewrite Ho.
  match goal with
  | |- context [_scroll_to_bottom ?c ?f ?s] =>
      destruct (scroll_to_bottom_frame c f s) as (-> & -> & -> & _)
  end.
  done.
Qed.

Lemma append_chunk_batch_fresh (cfg : Config) (t : str) (st : Screen) :
  current_bubble st = None ->
  let st' := _append_chunk_batch cfg t st in
  let b := length (heap st) in
  current_bubble st' = Some b
  /\ children st' = b :: children st
  /\ heap st' = heap st ++ [mkBubble t false].
Proof.
  intros Hb st' b. unfold st', _append_chunk_batch, update_text, label_text.
  unfold new_bubble. cbv zeta. simpl. rewrite Hb. simpl.
  rewrite list_lookup_middle by done. simpl.
  match goal with
  | |- context [_scroll_to_bottom ?c ?f ?s] =>
      destruct (scroll_to_bottom_frame c f s) as (-> & -> & -> & _)
  end.
  simpl. repeat split.
  replace (length (heap st)) with (length (heap st) + 0)%nat at 1 by lia.
  by rewrite insert_app_r.
Qed.

Lemma append_batches_current (cfg : Config) (ds : list (nat * str))
    (st : Screen) (b : ref) (o : ModernBubble) :
  current_bubble st = Some b -> heap st !! b = Some o ->
  let st' := append_batches cfg ds st in
  current_bubble st' = Some b
  /\ children st' = children st
  /\ length (heap st') = length (heap st)
  /\ heap st' !! b = Some (mkBubble (text o ++ concat ds.*2) (is_user o)).
Proof.
  revert st o. induction ds as [|[d t] ds IH]; intros st o Hb Ho; simpl.
  - rewrite app_nil_r. by destruct o.
  - destruct (append_chunk_batch_current cfg t (advance d st) b o Hb Ho)
      as (Hb1 & Hc1 & Hh1).
    set (st1 := _append_chunk_batch cfg t (advance d st)) in *.
    assert (Hlt : (b < length (heap st))%nat)
      by (by eapply lookup_lt_Some).
    assert (Ho1 : heap st1 !! b
      = Some (mkBubble (text o ++ t) (is_user o))).
    { rewrite Hh1. simpl. by rewrite list_lookup_insert_eq. }
    destruct (IH st1 _ Hb1 Ho1) as (Hb2 & Hc2 & Hl2 & Hh2).
    change (append_batches cfg ((d, t) :: ds) st)
      with (append_batches cfg ds st1).
    split; [done|]. split; [by rewrite Hc2, Hc1|]. split.
    + rewrite Hl2, Hh1. simpl. by rewrite length_insert.
    + rewrite Hh2. simpl. by rewrite app_assoc.
Qed.

(** C3: starting with no streaming message in progress, applying
    [_append_chunk_batch] to the deltas one after the other appends one
    new (AI) bubble at the newest end of the history and leaves its text
    equal to the concatenation of the deltas in order. *)
Theorem C3_update_last_concatenates_deltas (cfg : Config) (st : Screen)
    (d : nat * str) (ds : list (nat * str)) :
  current_bubble st = None ->
  let st' := append_batches cfg (d :: ds) st in
  let b := length (heap st) in
  current_bubble st' = Some b
  /\ children st' = b :: children st
  /\ heap st' !! b = Some (mkBubble (concat (d :: ds).*2) false)
  /\ label_text b st' = concat (d :: ds).*2.
Proof.
  intros Hb st' b. destruct d as [d t].
  destruct (append_chunk_batch_fresh cfg t (advance d st) Hb)
    as (Hb1 & Hc1 & Hh1).
  set (st1 := _append_chunk_batch cfg t (advance d st)) in *.
  assert (Ho1 : heap st1 !! b = Some (mkBubble t false)).
  { rewrite Hh1. simpl. by rewrite list_lookup_middle. }
  destruct (append_batches_current cfg ds st1 b _ Hb1 Ho1)
    as (Hb2 & Hc2 & _ & Hh2).
  assert (Hh : heap st' !! b = Some (mkBubble (concat ((d, t) :: ds).*2) false))
    by exact Hh2.
  repeat split.
  - exact Hb2.
  - unfold st', append_batches. simpl. fold st1.
    unfold append_batches in Hc2. by rewrite Hc2.
  - exact Hh.
  - unfold label_text. by rewrite Hh.
Qed.

Lemma C3_update_last_concatenates_deltas_witness :
  label_text 1%nat
    (append_batches cfg_small
       [(0%nat, lit "Hel"); (60%nat, lit "lo, "); (5%nat, lit "world")]
       (init cfg_small 0))
  = lit "Hello, world".
Proof.
  exact (proj2 (proj2 (proj2
    (C3_update_last_concatenates_deltas cfg_small (init cfg_small 0)
       (0%nat, lit "Hel") [(60%nat, lit "lo, "); (5%nat, lit "world")]
       eq_refl)))).
Defined.

(** ** The scroll throttle: coalescing *)

Lemma scroll_request_coalesced (cfg : Config) (st : Screen) :
  _scroll_scheduled st = true ->
  now st - _last_scroll_time st < _scroll_throttle_delay cfg ->
  _scroll_to_bottom cfg false st = st.
Proof.
  intros Hs Hw. destruct (scroll_to_bottom_outcome cfg false st)
    as [[?|?]|_ _ ?|]; try done; try lia. congruence.
Qed.

Lemma scroll_request_deferred (cfg : Config) (st : Screen) :
  _scroll_scheduled st = false ->
  now st - _last_scroll_time st < _scroll_throttle_delay cfg ->
  _scroll_to_bottom cfg false st
  = schedule_once T_do_throttled_scroll (_scroll_throttle_delay cfg)
      (set_scroll_scheduled true st).
Proof.
  intros Hs Hw. destruct (scroll_to_bottom_outcome cfg false st)
    as [[?|?]| |_ _ ?]; try done; try lia. congruence.
Qed.

Lemma scroll_requests_coalesced (cfg : Config) (ds : list nat)
    (st : Screen) :
  _scroll_scheduled st = true ->
  now st + Z.of_nat (sum_list ds) - _last_scroll_time st
    < _scroll_throttle_delay cfg ->
  scroll_requests cfg ds st = set_now (now st + Z.of_nat (sum_list ds)) st.
Proof.
  unfold scroll_requests. revert st.
  induction ds as [|d ds IH]; intros st Hs Hw; simpl in *.
  - rewrite Z.add_0_r. by destruct st.
  - rewrite scroll_request_coalesced; [|done|simpl; lia].
    rewrite IH; [|done|simpl; lia].
    unfold advance, set_now. simpl. f_equal. lia.
Qed.

(** C5, as amended: [N >= 1] unforced scroll requests that all arrive
    less than the throttle delay after the last performed scroll, with
    no deferred scroll pending, perform no scroll themselves and leave
    exactly one deferred scroll in the queue, due one throttle delay
    after the first of them; the clock cannot run it before that time,
    and when it runs it performs exactly one scroll.  In every run of the
    screen at most one deferred scroll is queued at any time. *)
Theorem C5_requests_in_window_one_deferred_scroll (cfg : Config)
    (st : Screen) (d : nat) (ds : list nat) :
  wf_clock st ->
  _scroll_scheduled st = false ->
  now st + Z.of_nat (d + sum_list ds) - _last_scroll_time st
    < _scroll_throttle_delay cfg ->
  let st' := scroll_requests cfg (d :: ds) st in
  let due := now st + Z.of_nat d + _scroll_throttle_delay cfg in
  scrolls st' = scrolls st
  /\ _last_scroll_time st' = _last_scroll_time st
  /\ clock st' = clock st ++ [(due, T_do_throttled_scroll)]
  /\ pending_count T_do_throttled_scroll (clock st') = 1%nat
  /\ (forall gap : nat,
        now st' + Z.of_nat gap < due ->
        clock_fire cfg (length (clock st)) (advance gap st')
        = advance gap st')
  /\ (forall gap : nat,
        due <= now st' + Z.of_nat gap ->
        let st'' := clock_fire cfg (length (clock st)) (advance gap st') in
        scrolls st'' = scrolls st ++ [now st' + Z.of_nat gap]
        /\ clock st'' = clock st
        /\ _scroll_scheduled st'' = false)
  /\ (forall (lower : str -> str) (evs : list input),
        (pending_count T_do_throttled_scroll
           (clock (run cfg lower evs st)) <= 1)%nat).
Proof.
  intros Hwf Hs Hw st' due.
  assert (Hst' : st'
    = set_now (now st + Z.of_nat (d + sum_list ds))
        (schedule_once T_do_throttled_scroll (_scroll_throttle_delay cfg)
           (set_scroll_scheduled true (advance d st)))).
  { unfold st'.
    change (scroll_requests cfg (d :: ds) st)
      with (scroll_requests cfg ds
              (_scroll_to_bottom cfg false (advance d st))).
    rewrite scroll_request_deferred; [|done|simpl; lia].
    rewrite scroll_requests_coalesced; [|done|simpl; lia].
    unfold set_now. simpl. f_equal. lia. }
  clearbody st'.
  assert (Hclock : clock st' = clock st ++ [(due, T_do_throttled_scroll)])
    by (by rewrite Hst').
  split; [by rewrite Hst'|]. split; [by rewrite Hst'|].
  split; [done|]. split; [|split; [|split]].
  - rewrite Hclock, pending_count_snoc. destruct Hwf as (HS & _).
    unfold scroll_ok in HS. by rewrite HS, Hs.
  - intros gap Hgap. unfold clock_fire. simpl clock.
    rewrite Hclock, list_lookup_middle by done.
    destruct (due <=? now (advance gap st')) eqn:Hdue; [|done].
    apply Z.leb_le in Hdue. simpl in Hdue. lia.
  - intros gap Hgap st''.
    assert (Hfire : st''
      = _do_throttled_scroll (set_clock (clock st) (advance gap st'))).
    { unfold st'', clock_fire. simpl clock.
      rewrite Hclock, list_lookup_middle by done.
      destruct (due <=? now (advance gap st')) eqn:Hdue.
      - by rewrite delete_middle, app_nil_r.
      - apply Z.leb_gt in Hdue. simpl in Hdue. lia. }
    rewrite Hfire, Hst'. by simpl.
  - intros lower evs.
    destruct (run_wf_clock cfg lower evs st Hwf) as (HS & _).
    unfold scroll_ok in HS. rewrite HS.
    destruct (_scroll_scheduled (run cfg lower evs st)); unfold flag_count; lia.
Qed.

Lemma C5_requests_in_window_one_deferred_scroll_witness :
  let st := run cfg_small lower_ascii [Tick 10; ClockFire 0; Tick 50]
              (init cfg_small 0) in
  clock (scroll_requests cfg_small [0; 20; 10]%nat st)
  = clock st ++ [(160, T_do_throttled_scroll)].
Proof.
  intros st.
  assert (Hwf : wf_clock st) by apply run_wf_clock, init_wf_clock.
  exact (proj1 (proj2 (proj2
    (C5_requests_in_window_one_deferred_scroll cfg_small st 0
       [20; 10]%nat Hwf ltac:(by vm_compute) ltac:(by vm_compute))))).
Defined.

(** C5 as stated fails: the last scroll was performed at 10 ms and the
    throttle is 100 ms, so the window ends at 110 ms; two requests at
    60 ms and 80 ms leave one deferred scroll, due at 160 ms.  At the
    window boundary the clock has nothing to run; the scroll is performed
    50 ms later. *)
Lemma C5_deferred_scroll_after_window_boundary :
  let st := run cfg_small lower_ascii [Tick 10; ClockFire 0; Tick 50]
              (init cfg_small 0) in
  let st' := scroll_requests cfg_small [0; 20]%nat st in
  _last_scroll_time st + _scroll_throttle_delay cfg_small = 110
  /\ now st = 60
  /\ clock st' = [(1000, T_test_backend); (160, T_do_throttled_scroll)]
  /\ scrolls (clock_fire cfg_small 1 (advance 30 st')) = scrolls st
  /\ now (advance 30 st') = 110
  /\ scrolls (clock_fire cfg_small 1 (advance 80 st')) = scrolls st ++ [160]
  /\ 160 <> _last_scroll_time st + _scroll_throttle_delay cfg_small.
Proof. vm_compute. repeat split; done. Qed.

(** ** Worker threads *)

(** C9, as amended: a step of a worker thread never changes the history
    (the bubbles and the children), the status label, the availability
    flag, the input field or the scroll state, and delivers no batch; it
    only adds callbacks to the clock queue, and for the backend probe and
    for a failed send that is all it does.  The chunk callback leaves
    [current_bubble] alone and the completion callback leaves the
    coalescer alone. *)
Theorem C9_worker_steps_enqueue (cfg : Config) (lower : str -> str)
    (i : nat) (a : worker_action) (st : Screen) :
  let st' := worker_step cfg lower i a st in
  heap st' = heap st /\ children st' = children st
  /\ status_label st' = status_label st
  /\ backend_available st' = backend_available st
  /\ text_input st' = text_input st
  /\ text_input_focus st' = text_input_focus st
  /\ _scroll_scheduled st' = _scroll_scheduled st
  /\ _last_scroll_time st' = _last_scroll_time st
  /\ scrolls st' = scrolls st /\ batches st' = batches st
  /\ (exists tasks, clock st' = clock st ++ tasks)
  /\ match a with
     | W_test_result _ | W_raise _ =>
         _pending_chunks st' = _pending_chunks st
         /\ _text_update_scheduled st' = _text_update_scheduled st
         /\ current_bubble st' = current_bubble st
     | W_chunk _ => current_bubble st' = current_bubble st
     | W_complete =>
         _pending_chunks st' = _pending_chunks st
         /\ _text_update_scheduled st' = _text_update_scheduled st
     end.
Proof.
  intros st'. unfold st', worker_step, _on_chunk.
  destruct (threads st !! i) as [[|m]|]; destruct a as [[[|]|]|c| |e];
    cbv zeta; simpl;
    try destruct (_text_update_scheduled st); simpl;
    repeat split;
    first [ by exists [] | by eexists; rewrite <- ?app_assoc
          | exists []; by rewrite app_nil_r ].
Qed.

(** C9 as stated fails: with a send in progress, the worker thread that
    receives the chunk "x" appends it to [_pending_chunks] and sets
    [_text_update_scheduled] itself; only the flush is handed to the
    clock. *)
Lemma C9_worker_chunk_writes_pending_buffer :
  let st := run cfg_small lower_ascii
              (boot_online ++ [UserTypes (lit "a"); UserSends])
              (init cfg_small 0) in
  let st' := step cfg_small lower_ascii st (Worker 0 (W_chunk (lit "x"))) in
  threads st = [Th_send (lit "a")]
  /\ _pending_chunks st = [] /\ _pending_chunks st' = [lit "x"]
  /\ _text_update_scheduled st = false
  /\ _text_update_scheduled st' = true
  /\ _pending_chunks st' <> _pending_chunks st.
Proof. vm_compute. repeat split; done. Qed.

(** ** Well-formedness of the widget tree along every run *)

Lemma wf_history_same (st st' : Screen) :
  heap st' = heap st -> children st' = children st ->
  current_bubble st' = current_bubble st ->
  wf_history st -> wf_history st'.
Proof. unfold wf_history. by intros -> -> ->. Qed.

Lemma wf_history_new_child (st st' : Screen) (o : ModernBubble) :
  heap st' = heap st ++ [o] ->
  children st' = length (heap st) :: children st ->
  current_bubble st' = current_bubble st
  \/ current_bubble st' = Some (length (heap st)) ->
  wf_history st -> wf_history st'.
Proof.
  intros Hh Hc Hb Hwf. pose proof (fresh_not_child st Hwf) as Hnd.
  destruct Hwf as (_ & Hall & Hcur). unfold wf_history.
  rewrite Hh, Hc, length_app. simpl. split; [done|]. split.
  - constructor; [lia|].
    eapply Forall_impl; [exact Hall|]. simpl. intros. lia.
  - intros b Hb'. destruct Hb as [Hb|Hb]; rewrite Hb in Hb'.
    + specialize (Hcur b Hb'). lia.
    + injection Hb' as <-. lia.
Qed.

Lemma wf_history_cleanup (cfg : Config) (st : Screen) :
  wf_history st -> wf_history (_cleanup_old_messages cfg st).
Proof.
  intros (Hnd & Hall & Hcur). unfold _cleanup_old_messages.
  destruct (_ <? _); [|done].
  rewrite iter_remove_oldest, iter_drop_oldest by done.
  unfold wf_history. simpl. split; [|split; [|done]].
  - apply (sublist_NoDup _ (children st)); [done|apply sublist_take].
  - by apply Forall_take.
Qed.

Lemma wf_history_scroll (cfg : Config) (f : bool) (st : Screen) :
  wf_history st -> wf_history (_scroll_to_bottom cfg f st).
Proof.
  destruct (scroll_to_bottom_frame cfg f st) as (? & ? & ? & _).
  by apply wf_history_same.
Qed.

Lemma wf_history_send_message (cfg : Config) (st : Screen) :
  wf_history st -> wf_history (send_message cfg st).
Proof.
  intros Hwf. unfold send_message. destruct (strip _) as [|c m]; [done|].
  cbv zeta. unfold new_bubble. cbv iota beta.
  set (st3 := add_widget _ _).
  assert (H3 : wf_history st3).
  { apply (wf_history_new_child st _ (mkBubble (c :: m) true));
      try done. by left. }
  pose proof (wf_history_cleanup cfg _ (wf_history_scroll cfg false _ H3))
    as H5.
  set (st5 := _cleanup_old_messages cfg _) in *.
  destruct (backend_available st5).
  - by apply (wf_history_same st5).
  - unfold _show_demo_response, new_bubble. cbv iota beta zeta.
    apply wf_history_scroll.
    apply (wf_history_new_child st5 _ (mkBubble (demo_text (c :: m)) false));
      try done. by left.
Qed.

Lemma wf_history_show_error (cfg : Config) (m : str) (st : Screen) :
  wf_history st -> wf_history (_show_error_message cfg m st).
Proof.
  intros Hwf. unfold _show_error_message, new_bubble. cbv iota beta zeta.
  set (st2 := add_widget _ _).
  apply (wf_history_same (_scroll_to_bottom cfg false st2)); try done.
  apply wf_history_scroll.
  apply (wf_history_new_child st _ (mkBubble (10060%N :: 32%N :: m) false));
    try done. by left.
Qed.

Lemma wf_history_append_chunk_batch (cfg : Config) (t : str) (st : Screen) :
  wf_history st -> wf_history (_append_chunk_batch cfg t st).
Proof.
  intros Hwf. destruct (current_bubble st) as [b|] eqn:Hb.
  - assert (Hlt : (b < length (heap st))%nat) by by apply Hwf.
    destruct (lookup_lt_is_Some_2 _ _ Hlt) as [o Ho].
    destruct (append_chunk_batch_current cfg t st b o Hb Ho)
      as (Hb' & Hc' & Hh').
    destruct Hwf as (Hnd & Hall & Hcur). unfold wf_history.
    rewrite Hb', Hc', Hh', length_insert. split; [done|].
    split; [done|]. by intros ? [= <-].
  - destruct (append_chunk_batch_fresh cfg t st Hb) as (Hb' & Hc' & Hh').
    apply (wf_history_new_child st _ (mkBubble t false)); try done.
    by right.
Qed.

Lemma wf_history_process (cfg : Config) (st : Screen) :
  wf_history st -> wf_history (_process_batched_chunks cfg st).
Proof.
  intros Hwf. unfold _process_batched_chunks.
  destruct (_pending_chunks st) as [|c l]; [done|]. cbv zeta.
  apply (wf_history_same
           (_append_chunk_batch cfg (concat (c :: l))
              (set_pending_chunks [] st))); try done.
  by apply wf_history_append_chunk_batch.
Qed.

Lemma wf_history_step (cfg : Config) (lower : str -> str) (st : Screen)
    (ev : input) :
  wf_history st -> wf_history (step cfg lower st ev).
Proof.
  intros Hwf. destruct ev as [d|i|cs|s| |i a]; simpl.
  - done.
  - unfold clock_fire. destruct (clock st !! i) as [[due cb]|]; [|done].
    destruct (due <=? now st); [|done].
    set (st1 := set_clock _ st).
    assert (H1 : wf_history st1) by done. clearbody st1.
    destruct cb; cbn [run_task];
      first [ by apply wf_history_scroll | by apply wf_history_process
            | by apply wf_history_show_error | done ].
  - unfold _monitor_connection_state.
    destruct cs; repeat case_match; done.
  - done.
  - by apply wf_history_send_message.
  - unfold worker_step, _on_chunk.
    destruct (threads st !! i) as [[|m]|]; destruct a as [[[|]|]|c| |e];
      try done.
    + cbv zeta. by destruct (negb _).
    + destruct Hwf as (? & ? & ?). by repeat split.
Qed.

(** Every state the screen reaches from [__init__] is well formed. *)
Lemma reachable_wf (cfg : Config) (lower : str -> str) (evs : list input)
    (t0 : Z) :
  wf_history (run cfg lower evs (init cfg t0))
  /\ wf_clock (run cfg lower evs (init cfg t0)).
Proof.
  split; [|apply run_wf_clock, init_wf_clock].
  assert (H0 : wf_history (init cfg t0)).
  { repeat split; simpl; [apply NoDup_singleton|by repeat constructor|done]. }
  unfold run. revert H0. generalize (init cfg t0).
  induction evs as [|ev evs IH]; intros st Hwf; [done|].
  simpl. by apply IH, wf_history_step.
Qed.

(** ** What each input hands to the clock *)

Lemma enqueues_refl (cfg : Config) (P : task -> Prop) (st : Screen) :
  enqueues cfg P st st.
Proof. split; [done|]. exists []. by rewrite app_nil_r. Qed.

Lemma enqueues_trans (cfg : Config) (P : task -> Prop)
    (st1 st2 st3 : Screen) :
  enqueues cfg P st1 st2 -> enqueues cfg P st2 st3 -> enqueues cfg P st1 st3.
Proof.
  intros (Hn1 & n1 & Hc1 & Hf1) (Hn2 & n2 & Hc2 & Hf2).
  split; [congruence|]. exists (n1 ++ n2).
  split; [by rewrite Hc2, Hc1, app_assoc|].
  apply Forall_app. split; [done|]. by rewrite <- Hn1.
Qed.

Lemma enqueues_same (cfg : Config) (P : task -> Prop) (st st' : Screen) :
  clock st' = clock st -> now st' = now st -> enqueues cfg P st st'.
Proof. intros Hc Hn. split; [done|]. exists []. by rewrite app_nil_r. Qed.

Lemma enqueues_one (cfg : Config) (P : task -> Prop) (cb : task)
    (st : Screen) :
  P cb -> enqueues cfg P st (schedule_once cb (timeout_of cfg cb) st).
Proof.
  intros HP. split; [done|]. eexists. split; [done|].
  by repeat constructor.
Qed.

Lemma enqueues_weaken (cfg : Config) (P Q : task -> Prop) (st st' : Screen) :
  (forall cb, P cb -> Q cb) -> enqueues cfg P st st' -> enqueues cfg Q st st'.
Proof.
  intros HPQ (Hn & new & Hc & Hf). split; [done|]. exists new.
  split; [done|]. eapply Forall_impl; [exact Hf|].
  intros e [HP He]. split; [by apply HPQ|done].
Qed.

Lemma scroll_to_bottom_enqueues (cfg : Config) (f : bool) (st : Screen) :
  enqueues cfg is_scroll st (_scroll_to_bottom cfg f st).
Proof.
  destruct (scroll_to_bottom_outcome cfg f st).
  - by apply enqueues_same.
  - apply (enqueues_trans _ _ _ (set_scroll_scheduled true st)).
    + by apply enqueues_same.
    + by apply (enqueues_one cfg is_scroll T_do_throttled_scroll).
  - apply enqueues_refl.
Qed.

Lemma send_message_enqueues (cfg : Config) (st : Screen) :
  enqueues cfg is_scroll st (send_message cfg st).
Proof.
  unfold send_message. destruct (strip _) as [|c m]; [apply enqueues_refl|].
  cbv zeta. unfold new_bubble. cbv iota beta.
  set (st3 := add_widget _ _).
  assert (H3 : enqueues cfg is_scroll st st3) by by apply enqueues_same.
  pose proof (scroll_to_bottom_enqueues cfg false st3) as H4.
  destruct (cleanup_children_only cfg (_scroll_to_bottom cfg false st3))
    as [l ->].
  set (st5 := set_children l _).
  assert (H5 : enqueues cfg is_scroll st st5).
  { apply (enqueues_trans _ _ _ _ _ H3).
    apply (enqueues_trans _ _ _ _ _ H4). by apply enqueues_same. }
  destruct (backend_available st5).
  - apply (enqueues_trans _ _ _ _ _ H5). by apply enqueues_same.
  - apply (enqueues_trans _ _ _ _ _ H5).
    unfold _show_demo_response, new_bubble. cbv iota beta zeta.
    eapply enqueues_trans; [|apply scroll_to_bottom_enqueues].
    by apply enqueues_same.
Qed.

Lemma show_error_message_enqueues (cfg : Config) (m : str) (st : Screen) :
  enqueues cfg is_scroll st (_show_error_message cfg m st).
Proof.
  unfold _show_error_message, new_bubble. cbv iota beta zeta.
  set (st2 := add_widget _ _).
  apply (enqueues_trans _ _ _ (_scroll_to_bottom cfg false st2)).
  - eapply enqueues_trans; [|apply scroll_to_bottom_enqueues].
    by apply enqueues_same.
  - by apply enqueues_same.
Qed.

Lemma append_chunk_batch_enqueues (cfg : Config) (t : str) (st : Screen) :
  enqueues cfg is_scroll st (_append_chunk_batch cfg t st).
Proof.
  unfold _append_chunk_batch, update_text, new_bubble. cbv zeta. simpl.
  destruct (current_bubble st); simpl; repeat case_match;
    (eapply enqueues_trans; [|apply scroll_to_bottom_enqueues]);
    by apply enqueues_same.
Qed.

Lemma process_batched_chunks_enqueues (cfg : Config) (st : Screen) :
  enqueues cfg is_scroll st (_process_batched_chunks cfg st).
Proof.
  unfold _process_batched_chunks.
  destruct (_pending_chunks st) as [|c l]; [by apply enqueues_same|].
  cbv zeta.
  apply (enqueues_trans _ _ _
           (_append_chunk_batch cfg (concat (c :: l))
              (set_pending_chunks [] st))).
  - eapply enqueues_trans; [|apply append_chunk_batch_enqueues].
    by apply enqueues_same.
  - by apply enqueues_same.
Qed.

Lemma run_task_enqueues (cfg : Config) (cb : task) (st : Screen) :
  enqueues cfg is_scroll st (run_task cfg cb st).
Proof.
  destruct cb; cbn [run_task];
    first [ apply scroll_to_bottom_enqueues
          | apply process_batched_chunks_enqueues
          | apply show_error_message_enqueues
          | by apply enqueues_same ].
Qed.

Lemma worker_step_enqueues (cfg : Config) (lower : str -> str) (i : nat)
    (a : worker_action) (st : Screen) :
  enqueues cfg (may_enqueue cfg lower (Worker i a)) st
    (worker_step cfg lower i a st).
Proof.
  unfold worker_step.
  destruct (threads st !! i) as [[|m]|]; destruct a as [[b|]|c| |e];
    try apply enqueues_refl.
  - apply (enqueues_trans _ _ _ (_threaded_test cfg (Some b) st));
      [|by apply enqueues_same].
    unfold _threaded_test.
    apply (enqueues_trans _ _ _
             (schedule_once (T_set_backend_available b) 0 st)).
    + apply (enqueues_one cfg _ (T_set_backend_available b)). by left.
    + destruct b.
      * apply (enqueues_one cfg _ (T_set_status (MSG_ONLINE cfg))).
        by right.
      * apply (enqueues_one cfg _ (T_set_status (MSG_DEMO_MODE cfg))).
        by right.
  - apply (enqueues_trans _ _ _ (_threaded_test cfg None st));
      [|by apply enqueues_same].
    by apply (enqueues_one cfg _ (T_set_status (MSG_DEMO_MODE cfg))).
  - unfold _on_chunk. cbv zeta.
    destruct (negb _); [|by apply enqueues_same].
    apply (enqueues_trans _ _ _
             (set_text_update_scheduled true
                (set_pending_chunks (_pending_chunks st ++ [c]) st)));
      [by apply enqueues_same|].
    by apply (enqueues_one cfg _ T_process_batched_chunks).
  - apply (enqueues_trans _ _ _ (_on_message_complete st));
      [|by apply enqueues_same].
    apply (enqueues_trans _ _ _ (set_current_bubble None st));
      [by apply enqueues_same|].
    by apply (enqueues_one cfg _ T_focus_input).
  - apply (enqueues_trans _ _ _ (_threaded_send_except lower e st));
      [|by apply enqueues_same].
    by apply (enqueues_one cfg _
                (T_show_error_message (_format_error_message lower e))).
Qed.

Lemma monitor_frame (cfg : Config) (cs : option ConnectionState)
    (st : Screen) :
  let st' := _monitor_connection_state cfg cs st in
  heap st' = heap st /\ children st' = children st
  /\ current_bubble st' = current_bubble st
  /\ text_input st' = text_input st
  /\ text_input_focus st' = text_input_focus st
  /\ _scroll_scheduled st' = _scroll_scheduled st
  /\ _last_scroll_time st' = _last_scroll_time st
  /\ _pending_chunks st' = _pending_chunks st
  /\ _text_update_scheduled st' = _text_update_scheduled st
  /\ clock st' = clock st /\ threads st' = threads st /\ now st' = now st
  /\ scrolls st' = scrolls st /\ batches st' = batches st.
Proof.
  unfold _monitor_connection_state.
  destruct cs; repeat case_match; by repeat split.
Qed.

(** The clock queue after an input: what the clock left, then what the
    handler scheduled. *)
Lemma step_clock_shape (cfg : Config) (lower : str -> str)
    (st : Screen) (ev : input) :
  let st' := step cfg lower st ev in
  now st' = now st + elapsed ev
  /\ exists new,
       clock st' = clock_base ev st ++ new
       /\ Forall (fun e => may_enqueue cfg lower ev e.2
                           /\ e.1 = now st' + timeout_of cfg e.2) new.
Proof.
  destruct ev as [d|i|cs|s| |i a]; cbn [step elapsed clock_base].
  - split; [done|]. exists []. by rewrite app_nil_r.
  - unfold clock_fire.
    destruct (clock st !! i) as [[due cb]|];
      [|split; [lia|exists []; by rewrite app_nil_r]].
    destruct (due <=? now st);
      [|split; [lia|exists []; by rewrite app_nil_r]].
    destruct (run_task_enqueues cfg cb (set_clock (delete i (clock st)) st))
      as (Hn & new & Hc & Hf).
    simpl in Hn, Hc, Hf. split; [lia|]. exists new. split; [done|].
    by rewrite Hn.
  - destruct (monitor_frame cfg cs st)
      as (_&_&_&_&_&_&_&_&_& Hc & _ & Hn & _).
    split; [lia|]. exists []. by rewrite app_nil_r.
  - split; [simpl; lia|]. exists []. by rewrite app_nil_r.
  - destruct (send_message_enqueues cfg st) as (Hn & new & Hc & Hf).
    split; [lia|]. exists new. split; [done|]. by rewrite Hn.
  - destruct (worker_step_enqueues cfg lower i a st)
      as (Hn & new & Hc & Hf).
    split; [lia|]. exists new. split; [done|]. by rewrite Hn.
Qed.

Lemma clock_base_sublist (ev : input) (st : Screen) :
  clock_base ev st `sublist_of` clock st.
Proof.
  destruct ev as [d|i|cs|s| |i a]; cbn [clock_base]; try done.
  destruct (clock st !! i) as [[due cb]|]; [|done].
  destruct (due <=? now st); [|done]. apply sublist_delete.
Qed.

(** X1: an input changes the clock queue in two ways only.  The clock
    itself takes the entry it runs, once due; and the handler appends
    callbacks of its own kind (a send or a clock callback only deferred
    scrolls, the probe only its result hand-offs, a chunk only the flush,
    a completion only the focus request, a failed send only its error
    message), each due its own timeout after the current time.  So every
    entry of the new queue is an old entry or such a callback, an input
    other than a clock callback keeps the old queue as a prefix, and only
    a tick moves the wall clock. *)
Theorem X1_clock_queue_grows_by_own_callbacks (cfg : Config)
    (lower : str -> str) (st : Screen) (ev : input) :
  let st' := step cfg lower st ev in
  now st' = now st + elapsed ev
  /\ Forall (fun e => e ∈ clock st
                      \/ may_enqueue cfg lower ev e.2
                         /\ e.1 = now st' + timeout_of cfg e.2) (clock st')
  /\ match ev with
     | ClockFire i =>
         exists new, clock st' = clock st ++ new
                     \/ clock st' = delete i (clock st) ++ new
     | _ => clock st `prefix_of` clock st'
     end.
Proof.
  intros st'. destruct (step_clock_shape cfg lower st ev)
    as (Hn & new & Hc & Hf). fold st' in Hn, Hc, Hf.
  split; [done|]. split.
  - rewrite Hc. apply Forall_app. split.
    + apply Forall_forall. intros e He. left.
      eapply elem_of_sublist; [exact He|apply clock_base_sublist].
    + eapply Forall_impl; [exact Hf|]. intros e He. by right.
  - destruct ev as [d|i|cs|s| |i a]; cbn [clock_base] in Hc;
      try (by exists new).
    exists new. destruct (clock st !! i) as [[due cb]|]; [|by left].
    destruct (due <=? now st); [by right|by left].
Qed.

(** ** Bounded waiting *)

Lemma Forall_clock_base (P : Z * task -> Prop) (ev : input) (st : Screen) :
  Forall P (clock st) -> Forall P (clock_base ev st).
Proof.
  intros H. destruct ev as [d|i|cs|s| |i a]; cbn [clock_base]; try done.
  destruct (clock st !! i) as [[due cb]|]; [|done].
  destruct (due <=? now st); [|done]. by apply Forall_delete.
Qed.

Lemma step_due_ok (cfg : Config) (lower : str -> str) (st : Screen)
    (ev : input) :
  due_ok cfg st -> due_ok cfg (step cfg lower st ev).
Proof.
  intros Hd. destruct (step_clock_shape cfg lower st ev)
    as (Hn & new & Hc & Hf).
  unfold due_ok. rewrite Hc. apply Forall_app. split.
  - eapply Forall_impl; [apply Forall_clock_base, Hd|].
    intros e He. simpl in He. rewrite Hn. destruct ev; simpl; lia.
  - eapply Forall_impl; [exact Hf|]. intros e [_ He]. lia.
Qed.

Lemma run_due_ok (cfg : Config) (lower : str -> str) (evs : list input)
    (st : Screen) :
  due_ok cfg st -> due_ok cfg (run cfg lower evs st).
Proof.
  unfold run. revert st.
  induction evs as [|ev evs IH]; intros st Hd; [done|].
  simpl. by apply IH, step_due_ok.
Qed.

Lemma init_due_ok (cfg : Config) (t0 : Z) : due_ok cfg (init cfg t0).
Proof. unfold due_ok. simpl. repeat constructor; simpl; lia. Qed.

Lemma queued_once (cb : task) (q : list (Z * task)) :
  pending_count cb q = 1%nat ->
  exists i due, q !! i = Some (due, cb).
Proof.
  intros Hc. destruct (find_task cb q) as [[i due]|] eqn:Hf.
  - exists i, due. by apply find_task_lookup.
  - apply find_task_none in Hf. lia.
Qed.


(** X3: in every state the screen reaches from [__init__], a throttled
    scroll request ([_scroll_scheduled] set) has its deferred scroll in
    the clock queue, due no later than one throttle delay from now; when
    the clock runs it, one scroll is performed and the flag is cleared. *)
Theorem X3_throttled_scroll_due_within_throttle_delay (cfg : Config)
    (lower : str -> str) (evs : list input) (t0 : Z) :
  let st := run cfg lower evs (init cfg t0) in
  _scroll_scheduled st = true ->
  exists i due,
    clock st !! i = Some (due, T_do_throttled_scroll)
    /\ due <= now st + _scroll_throttle_delay cfg
    /\ forall d : nat,
         due <= now st + Z.of_nat d ->
         let st' := clock_fire cfg i (advance d st) in
         scrolls st' = scrolls st ++ [now st + Z.of_nat d]
         /\ _last_scroll_time st' = now st + Z.of_nat d
         /\ _scroll_scheduled st' = false.
Proof.
  intros st Hs.
  destruct (run_wf_clock cfg lower evs _ (init_wf_clock cfg t0))
    as (HS & _). fold st in HS.
  pose proof (run_due_ok cfg lower evs _ (init_due_ok cfg t0)) as Hd.
  fold st in Hd. unfold scroll_ok in HS. rewrite Hs in HS.
  destruct (queued_once _ _ HS) as (i & due & Hi).
  exists i, due. split; [done|]. split.
  - unfold due_ok in Hd. rewrite Forall_lookup in Hd.
    apply (Hd i (due, T_do_throttled_scroll) Hi).
  - intros d Hdue st'. unfold st', clock_fire. simpl clock. rewrite Hi.
    replace (due <=? now (advance d st)) with true
      by (symmetry; apply Z.leb_le; simpl; lia).
    done.
Qed.

(** ** The probe and the availability flag *)

Lemma pending_count_app (cb : task) (q1 q2 : list (Z * task)) :
  pending_count cb (q1 ++ q2)
  = (pending_count cb q1 + pending_count cb q2)%nat.
Proof. unfold pending_count. by rewrite filter_app, length_app. Qed.

Lemma pending_count_none (cb : task) (P : task -> Prop)
    (q : list (Z * task)) :
  ~ P cb -> Forall (fun e => P e.2) q -> pending_count cb q = 0%nat.
Proof.
  intros Hcb. induction 1 as [|[d c] q Hc _ IH]; [done|].
  unfold pending_count in *. rewrite filter_cons. simpl in *.
  destruct (decide (c = cb)) as [->|]; [done|exact IH].
Qed.

Lemma may_enqueue_not_probe (cfg : Config) (lower : str -> str)
    (ev : input) :
  ~ may_enqueue cfg lower ev T_test_backend.
Proof.
  destruct ev as [d|i|cs|s| |i [[b|]|c| |e]]; simpl; intros H; try done.
  by destruct H.
Qed.

Lemma step_probe_budget (cfg : Config) (lower : str -> str) (st : Screen)
    (ev : input) :
  (starts_probe st ev
   + pending_count T_test_backend (clock (step cfg lower st ev))
   <= pending_count T_test_backend (clock st))%nat.
Proof.
  destruct (step_clock_shape cfg lower st ev) as (_ & new & Hc & Hf).
  rewrite Hc, pending_count_app.
  rewrite (pending_count_none _ (may_enqueue cfg lower ev) new);
    [|apply may_enqueue_not_probe
     |eapply Forall_impl; [exact Hf|]; by intros e [? _]].
  destruct ev as [d|i|cs|s| |i a]; cbn [starts_probe clock_base]; try lia.
  destruct (clock st !! i) as [[due cb]|] eqn:Hi; [|lia].
  pose proof (pending_count_delete T_test_backend cb due i _ Hi) as Hdel.
  destruct (due <=? now st); destruct cb; simpl in Hdel; lia.
Qed.

(** X4: the backend is probed at most once.  Along every run of the
    screen from [__init__] the clock starts the probe thread at most one
    time, and it can do so: the probe is queued by [__init__], due one
    second later. *)
Theorem X4_backend_probed_at_most_once (cfg : Config) (lower : str -> str)
    (evs : list input) (t0 : Z) :
  (probe_starts cfg lower evs (init cfg t0) <= 1)%nat
  /\ clock (init cfg t0) !! 1%nat = Some (t0 + 1000, T_test_backend)
  /\ threads (clock_fire cfg 1 (advance 1000 (init cfg t0))) = [Th_test].
Proof.
  split; [|split; [done|]].
  2: { unfold clock_fire. simpl.
       replace (t0 + 1000 <=? t0 + Z.of_nat 1000) with true
         by (symmetry; apply Z.leb_le; lia).
       done. }
  assert (H : forall st,
    (probe_starts cfg lower evs st
     <= pending_count T_test_backend (clock st))%nat).
  { induction evs as [|ev evs IH]; intros st; simpl; [lia|].
    specialize (IH (step cfg lower st ev)).
    pose proof (step_probe_budget cfg lower st ev). lia. }
  exact (H (init cfg t0)).
Qed.

Lemma send_message_backend_threads (cfg : Config) (st : Screen) :
  backend_available (send_message cfg st) = backend_available st
  /\ (backend_available st = false ->
      threads (send_message cfg st) = threads st).
Proof.
  unfold send_message. destruct (strip _) as [|c m]; [done|].
  cbv zeta. unfold new_bubble. cbv iota beta.
  set (st3 := add_widget _ _).
  destruct (scroll_to_bottom_frame cfg false st3)
    as (_ & _ & _ & Hba & _ & _ & _ & _ & _ & Hth & _).
  destruct (cleanup_children_only cfg (_scroll_to_bottom cfg false st3))
    as [l ->].
  set (st5 := set_children l _).
  assert (Hb5 : backend_available st5 = backend_available st)
    by (simpl; by rewrite Hba).
  assert (Ht5 : threads st5 = threads st) by (simpl; by rewrite Hth).
  clearbody st5. rewrite Hb5. destruct (backend_available st) eqn:Hb.
  - split; [exact Hb5|done].
  - unfold _show_demo_response, new_bubble. cbv iota beta zeta.
    set (st7 := add_widget _ _).
    assert (Hb7 : backend_available st7 = false) by exact Hb5.
    assert (Ht7 : threads st7 = threads st) by exact Ht5.
    clearbody st7.
    destruct (scroll_to_bottom_frame cfg false st7)
      as (_ & _ & _ & Hba7 & _ & _ & _ & _ & _ & Hth7 & _).
    by rewrite Hba7, Hth7, Hb7, Ht7.
Qed.

Lemma process_batched_chunks_backend (cfg : Config) (st : Screen) :
  backend_available (_process_batched_chunks cfg st) = backend_available st
  /\ threads (_process_batched_chunks cfg st) = threads st.
Proof.
  unfold _process_batched_chunks.
  destruct (_pending_chunks st) as [|c l]; [done|]. cbv zeta. simpl.
  unfold _append_chunk_batch, update_text, new_bubble. cbv zeta. simpl.
  destruct (current_bubble st); simpl; repeat case_match;
    match goal with
    | |- context [_scroll_to_bottom ?c ?f ?s] =>
        destruct (scroll_to_bottom_frame c f s)
          as (_ & _ & _ & -> & _ & _ & _ & _ & _ & -> & _)
    end; done.
Qed.

Lemma may_enqueue_not_available (cfg : Config) (lower : str -> str)
    (ev : input) :
  reports_available ev = false ->
  ~ may_enqueue cfg lower ev (T_set_backend_available true).
Proof.
  destruct ev as [d|i|cs|s| |i [[[|]|]|c| |e]]; simpl; intros Hr H;
    try done.
  by destruct H.
Qed.

Lemma step_never_available (cfg : Config) (lower : str -> str)
    (st : Screen) (ev : input) :
  reports_available ev = false ->
  never_available st -> never_available (step cfg lower st ev).
Proof.
  intros Hev (Hb & Hq & Ht).
  assert (Hq' : Forall (fun e => e.2 <> T_set_backend_available true)
                  (clock (step cfg lower st ev))).
  { destruct (step_clock_shape cfg lower st ev) as (_ & new & Hc & Hf).
    rewrite Hc. apply Forall_app. split; [by apply Forall_clock_base|].
    eapply Forall_impl; [exact Hf|]. intros e [He _] Heq.
    rewrite Heq in He. by apply (may_enqueue_not_available cfg lower ev). }
  split; [|split; [done|]].
  - destruct ev as [d|i|cs|s| |i a]; cbn [step].
    + done.
    + unfold clock_fire.
      destruct (clock st !! i) as [[due cb]|] eqn:Hi; [|done].
      destruct (due <=? now st); [|done].
      rewrite Forall_lookup in Hq. specialize (Hq i _ Hi). simpl in Hq.
      destruct cb as [| | | |[|]| | |]; cbn [run_task]; try done.
      by destruct (process_batched_chunks_backend cfg
                     (set_clock (delete i (clock st)) st)) as [-> _].
    + unfold _monitor_connection_state.
      destruct cs as [[| | | | |]|]; simpl in *; try done;
        repeat case_match; done.
    + done.
    + by destruct (send_message_backend_threads cfg st) as [-> _].
    + unfold worker_step, _on_chunk.
      destruct (threads st !! i) as [[|m]|]; destruct a as [[[|]|]|c| |e];
        try done.
      cbv zeta. by destruct (negb _).
  - destruct ev as [d|i|cs|s| |i a]; cbn [step].
    + done.
    + unfold clock_fire.
      destruct (clock st !! i) as [[due cb]|] eqn:Hi; [|done].
      destruct (due <=? now st); [|done].
      destruct cb; cbn [run_task];
        first
          [ done
          | simpl; apply Forall_app; split; [done|]; by repeat constructor
          | by destruct (process_batched_chunks_backend cfg
                           (set_clock (delete i (clock st)) st)) as [_ ->]
          | unfold _show_error_message, new_bubble; cbv iota beta zeta;
            simpl;
            match goal with
            | |- context [_scroll_to_bottom ?c ?f ?s] =>
                by destruct (scroll_to_bottom_frame c f s)
                  as (_&_&_&_&_&_&_&_&_& -> & _)
            end ].
    + by destruct (monitor_frame cfg cs st)
        as (_&_&_&_&_&_&_&_&_&_& -> & _).
    + done.
    + destruct (send_message_backend_threads cfg st) as [_ Hth].
      by rewrite Hth.
    + unfold worker_step, _on_chunk.
      destruct (threads st !! i) as [[|m]|] eqn:Hi;
        destruct a as [[[|]|]|c| |e]; try done;
        try (simpl; by apply Forall_delete).
      all: rewrite Forall_lookup in Ht; by specialize (Ht i _ Hi).
Qed.

(** X5: as long as no probe succeeds and no monitor tick reads
    [CONNECTED], the screen stays in demo mode whatever else happens:
    along every such run from [__init__], [backend_available] is false
    and no send thread exists, so [client.send_message] is never
    called. *)
Theorem X5_no_send_thread_before_backend_reported (cfg : Config)
    (lower : str -> str) (evs : list input) (t0 : Z) :
  forallb (fun ev => negb (reports_available ev)) evs = true ->
  let st := run cfg lower evs (init cfg t0) in
  backend_available st = false
  /\ Forall (fun th => th = Th_test) (threads st).
Proof.
  intros Hevs st.
  assert (H : never_available st); [|by destruct H as (? & _ & ?)].
  unfold st, run.
  assert (H0 : never_available (init cfg t0)).
  { split; [done|]. split; [|done]. by repeat constructor. }
  revert H0. generalize (init cfg t0).
  induction evs as [|ev evs IH]; intros s Hs; [done|].
  simpl in Hevs. apply andb_true_iff in Hevs as [Hev Hevs].
  simpl. apply (IH Hevs), step_never_available; [|done].
  by destruct (reports_available ev).
Qed.

(** ** Error messages *)

Lemma startswith_app (p s : str) : startswith p (p ++ s) = true.
Proof.
  induction p as [|a p IH]; simpl; [done|]. by rewrite N.eqb_refl, IH.
Qed.

Lemma startswith_inv (p s : str) :
  startswith p s = true -> exists post, s = p ++ post.
Proof.
  revert s. induction p as [|a p IH]; intros s; simpl; [by exists s|].
  destruct s as [|b s]; [done|].
  intros [Hab Hps]%andb_true_iff. apply N.eqb_eq in Hab as ->.
  destruct (IH s Hps) as [post ->]. by exists post.
Qed.

(** [needle in hay] holds exactly when [hay] is some text, the needle,
    some text. *)
Lemma contains_spec (needle hay : str) :
  contains needle hay = true
  <-> exists pre post, hay = pre ++ needle ++ post.
Proof.
  split.
  - induction hay as [|c hay IH]; simpl.
    + intros H. destruct (startswith_inv _ _ H) as [post Hp].
      exists [], post. exact Hp.
    + intros [H|H]%orb_true_iff.
      * destruct (startswith_inv _ _ H) as [post Hp]. by exists [], post.
      * destruct (IH H) as (pre & post & ->). by exists (c :: pre), post.
  - intros (pre & post & ->). induction pre as [|c pre IH]; simpl.
    + destruct (needle ++ post) as [|c l] eqn:Heq.
      * apply app_eq_nil in Heq as [-> _]. done.
      * simpl. rewrite <- Heq, startswith_app. done.
    + rewrite IH. by rewrite orb_true_r.
Qed.

(** X6: [_format_error_message] shows the user one of four fixed
    messages and never the text of the exception; an error whose text
    holds "Connection refused" (in this spelling) is reported as a
    failure to connect, whatever else the text mentions. *)
Theorem X6_error_message_fixed_and_refusal_first (lower : str -> str)
    (error pre post : str) :
  _format_error_message lower error ∈ error_messages
  /\ _format_error_message lower (pre ++ lit "Connection refused" ++ post)
     = lit "Cannot connect to server. Please check your connection.".
Proof.
  split.
  - unfold _format_error_message, error_messages.
    repeat case_match; repeat (first [apply list_elem_of_here
                                     |apply list_elem_of_further]).
  - unfold _format_error_message.
    replace (contains _ _) with true; [done|].
    symmetry. apply contains_spec. by exists pre, post.
Qed.


(** X8: when [client.send_message] raises in a send thread, the thread
    ends and hands one callback to the clock, due at once; when the clock
    runs it, the formatted message appears as the newest bubble and the
    screen is in demo mode. *)
Theorem X8_failed_send_reaches_history (cfg : Config) (lower : str -> str)
    (i : nat) (message error : str) (st : Screen) :
  threads st !! i = Some (Th_send message) ->
  let st1 := worker_step cfg lower i (W_raise error) st in
  let st2 := clock_fire cfg (length (clock st)) st1 in
  let shown := 10060%N :: 32%N :: _format_error_message lower error in
  threads st1 = delete i (threads st)
  /\ clock st1
     = clock st
       ++ [(now st, T_show_error_message (_format_error_message lower error))]
  /\ children st1 = children st
  /\ children st2 = length (heap st) :: children st
  /\ label_text (length (heap st)) st2 = shown
  /\ backend_available st2 = false
  /\ pending_count
       (T_show_error_message (_format_error_message lower error))
       (clock st2)
     = pending_count
         (T_show_error_message (_format_error_message lower error))
         (clock st).
Proof.
  intros Hi st1 st2 shown.
  assert (H1 : st1
    = set_threads (delete i (threads st))
        (schedule_once
           (T_show_error_message (_format_error_message lower error)) 0 st)).
  { unfold st1, worker_step. by rewrite Hi. }
  assert (Hc1 : clock st1
    = clock st
      ++ [(now st,
           T_show_error_message (_format_error_message lower error))]).
  { rewrite H1. simpl. by rewrite Z.add_0_r. }
  assert (H2 : st2
    = _show_error_message cfg (_format_error_message lower error)
        (set_clock (clock st) st1)).
  { unfold st2, clock_fire. rewrite Hc1, list_lookup_middle by done.
    replace (now st <=? now st1) with true
      by (symmetry; apply Z.leb_le; rewrite H1; simpl; lia).
    by rewrite delete_middle, app_nil_r. }
  clearbody st1 st2. split; [by rewrite H1|]. split; [done|].
  split; [by rewrite H1|].
  set (st1' := set_clock (clock st) st1) in *.
  assert (Hh : heap st1' = heap st) by (unfold st1'; by rewrite H1).
  assert (Hch : children st1' = children st)
    by (unfold st1'; by rewrite H1).
  assert (Hck : clock st1' = clock st) by done.
  clearbody st1'. rewrite H2.
  unfold _show_error_message, new_bubble. cbv iota beta zeta.
  set (st4 := add_widget _ _).
  destruct (scroll_to_bottom_frame cfg false st4)
    as (Hh4 & Hc4 & _).
  destruct (scroll_to_bottom_leaves cfg false st4)
    as (_ & _ & _ & _ & Hcnt & _).
  split; [|split; [|split]].
  - simpl. rewrite Hc4. simpl. by rewrite Hh, Hch.
  - unfold label_text. simpl. rewrite Hh4. simpl. rewrite Hh.
    by rewrite list_lookup_middle.
  - done.
  - simpl. rewrite Hcnt by done. simpl. by rewrite Hck.
Qed.

(** ** The connection monitor and the probe *)

(** X9: a monitor tick that reads a client state makes the status label
    the message of that state and [backend_available] true exactly for
    [CONNECTED], whatever they were before (a probe result or an error
    fallback is overridden); a tick changes nothing but these two fields,
    and a second tick with the same reading changes nothing at all. *)
Theorem X9_monitor_sets_status_from_client_state (cfg : Config)
    (cs : option ConnectionState) (st : Screen) :
  let st' := _monitor_connection_state cfg cs st in
  _monitor_connection_state cfg cs st' = st'
  /\ st' = set_backend_available (backend_available st')
             (set_status_label (status_label st') st)
  /\ match cs with
     | Some state =>
         status_label st' = status_map cfg state
         /\ backend_available st' = is_connected state
     | None =>
         backend_available st' = backend_available st
         /\ (backend_available st = false ->
             status_label st' = MSG_DEMO_MODE cfg)
     end.
Proof.
  intros st'. unfold st', _monitor_connection_state.
  destruct st as [h ch cb ba sl ti tf ss ls pc tu ck th nw sc bt].
  destruct cs as [state|]; simpl.
  - destruct (decide (sl = status_map cfg state)) as [->|Hne]; simpl.
    + destruct (decide (status_map cfg state = status_map cfg state));
        [done|congruence].
    + destruct (decide (status_map cfg state = status_map cfg state));
        [done|congruence].
  - destruct ba; simpl; [done|].
    destruct (bool_decide (sl = MSG_DEMO_MODE cfg)) eqn:Hd; simpl.
    + rewrite Hd. simpl. apply bool_decide_eq_true in Hd. by subst.
    + rewrite bool_decide_eq_true_2 by done. done.
Qed.

(** The clock runs the entry at position [n] once it is due. *)
Lemma clock_fire_at (cfg : Config) (n : nat) (st : Screen)
    (q : list (Z * task)) (due : Z) (cb : task) (rest : list (Z * task)) :
  clock st = q ++ (due, cb) :: rest -> n = length q -> due <= now st ->
  clock_fire cfg n st = run_task cfg cb (set_clock (q ++ rest) st).
Proof.
  intros Hc -> Hdue. unfold clock_fire.
  rewrite Hc, list_lookup_middle by done.
  replace (due <=? now st) with true by (symmetry; by apply Z.leb_le).
  by rewrite delete_middle.
Qed.

(** X10: the result of the backend probe reaches the screen through the
    clock only.  The probe thread ends and leaves its hand-offs at the
    end of the queue, due at once; after the clock has run them,
    [backend_available] is the probe's answer and the status is online
    or demo mode accordingly.  When [client.test_connection] raises, only
    the demo-mode status is handed off and [backend_available] keeps its
    value. *)
Theorem X10_probe_result_applied_by_clock (cfg : Config)
    (lower : str -> str) (i : nat) (r : option bool) (st : Screen) :
  threads st !! i = Some Th_test ->
  let st1 := worker_step cfg lower i (W_test_result r) st in
  let n := length (clock st) in
  backend_available st1 = backend_available st
  /\ status_label st1 = status_label st
  /\ threads st1 = delete i (threads st)
  /\ match r with
     | Some b =>
         let st3 := clock_fire cfg n (clock_fire cfg n st1) in
         backend_available st3 = b
         /\ status_label st3
            = (if b then MSG_ONLINE cfg else MSG_DEMO_MODE cfg)
         /\ clock st3 = clock st
     | None =>
         let st2 := clock_fire cfg n st1 in
         backend_available st2 = backend_available st
         /\ status_label st2 = MSG_DEMO_MODE cfg
         /\ clock st2 = clock st
     end.
Proof.
  intros Hi st1 n.
  assert (H1 : st1
    = set_threads (delete i (threads st)) (_threaded_test cfg r st)).
  { unfold st1, worker_step. by rewrite Hi. }
  clearbody st1. subst st1. unfold _threaded_test.
  destruct r as [b|]; cbn zeta.
  - split; [by destruct b|]. split; [by destruct b|].
    split; [by destruct b|].
    set (e2 := (now st + 0,
                T_set_status
                  (if b then MSG_ONLINE cfg else MSG_DEMO_MODE cfg))).
    set (s1 := set_threads _ _).
    assert (Hc1 : clock s1
      = clock st ++ (now st + 0, T_set_backend_available b) :: [e2]).
    { unfold s1, e2. destruct b; simpl; by rewrite <- app_assoc. }
    assert (Hn1 : now s1 = now st) by (unfold s1; by destruct b).
    rewrite (clock_fire_at cfg n s1 (clock st) _ _ [e2] Hc1 eq_refl)
      by (rewrite Hn1; lia).
    cbn [run_task]. set (s2 := set_backend_available b _).
    assert (Hc2 : clock s2 = clock st ++ e2 :: []) by done.
    assert (Hn2 : now s2 = now st) by done.
    rewrite (clock_fire_at cfg n s2 (clock st) _ _ [] Hc2 eq_refl)
      by (rewrite Hn2; simpl; lia).
    cbn [run_task]. simpl. by rewrite app_nil_r.
  - split; [done|]. split; [done|]. split; [done|].
    set (s1 := set_threads _ _).
    assert (Hc1 : clock s1
      = clock st ++ (now st + 0, T_set_status (MSG_DEMO_MODE cfg)) :: [])
      by done.
    rewrite (clock_fire_at cfg n s1 (clock st) _ _ [] Hc1 eq_refl)
      by (simpl; lia).
    cbn [run_task]. simpl. by rewrite app_nil_r.
Qed.

(** ** Streaming *)

(** X11: after [_on_message_complete] the streaming bubble is closed:
    the next batch does not extend it but opens a new bubble holding just
    that batch, at the newest end of the history, and every older bubble
    keeps its text.  The completion also queues the focus request, which
    puts the focus on the input field when the clock runs it. *)
Theorem X11_completion_closes_streaming_bubble (cfg : Config) (t : str)
    (st : Screen) :
  let st1 := _on_message_complete st in
  let st2 := _append_chunk_batch cfg t st1 in
  let b := length (heap st) in
  current_bubble st1 = None
  /\ clock st1 = clock st ++ [(now st, T_focus_input)]
  /\ text_input_focus (clock_fire cfg (length (clock st)) st1) = true
  /\ current_bubble st2 = Some b
  /\ children st2 = b :: children st
  /\ heap st2 = heap st ++ [mkBubble t false].
Proof.
  intros st1 st2 b. split; [done|].
  split; [simpl; by rewrite Z.add_0_r|]. split.
  - unfold clock_fire, st1, _on_message_complete. simpl.
    rewrite list_lookup_middle by done.
    replace (now st + 0 <=? now st) with true
      by (symmetry; apply Z.leb_le; lia).
    done.
  - by destruct (append_chunk_batch_fresh cfg t st1 eq_refl)
      as (? & ? & ?).
Qed.

(** X12: while the bubble being streamed into is not among the children
    (it was evicted), a batch still goes to that detached object: the
    history shows no new bubble, and the text of every bubble that is
    shown stays as it was. *)
Theorem X12_batches_after_eviction_are_invisible (cfg : Config) (t : str)
    (st : Screen) (b : ref) (o : ModernBubble) :
  current_bubble st = Some b -> heap st !! b = Some o ->
  b ∉ children st ->
  let st' := _append_chunk_batch cfg t st in
  children st' = children st
  /\ current_bubble st' = Some b
  /\ label_text b st' = text o ++ t
  /\ Forall (fun w => label_text w st' = label_text w st) (children st').
Proof.
  intros Hb Ho Hnin st'.
  destruct (append_chunk_batch_current cfg t st b o Hb Ho)
    as (Hb' & Hc' & Hh'). fold st' in Hb', Hc', Hh'.
  assert (Hlt : (b < length (heap st))%nat) by (by eapply lookup_lt_Some).
  split; [done|]. split; [done|]. split.
  - unfold label_text. rewrite Hh'. by rewrite list_lookup_insert_eq.
  - rewrite Hc'. apply Forall_forall. intros w Hw.
    unfold label_text. rewrite Hh'.
    rewrite list_lookup_insert_ne; [done|]. by intros ->.
Qed.

(** ** The demo response and the user's bubble *)

(** X13: the demo response is at most 53 characters long, whatever the
    length of the message; a message of up to 30 characters is echoed in
    full between the quotes, a longer one is cut after 30 characters and
    followed by three dots. *)
Theorem X13_demo_text_bounded_echo (message : str) :
  (length (demo_text message) <= 53)%nat
  /\ demo_text message
     = lit "Demo response to: '"
       ++ (if decide (length message <= 30)%nat then message
           else take 30 message ++ lit "...")
       ++ lit "'".
Proof.
  unfold demo_text. rewrite !length_app, length_take.
  assert (H1 : length (lit "Demo response to: '") = 19%nat) by reflexivity.
  assert (H2 : length (lit "...") = 3%nat) by reflexivity.
  assert (H3 : length (lit "'") = 1%nat) by reflexivity.
  rewrite H1, H3.
  destruct (30 <? length message)%nat eqn:Hlt.
  - apply Nat.ltb_lt in Hlt.
    split; [rewrite H2, Nat.min_l by lia; lia|].
    destruct (decide _); [lia|]. by rewrite <- !app_assoc.
  - apply Nat.ltb_ge in Hlt.
    split; [rewrite Nat.min_r by lia; simpl; lia|].
    destruct (decide _); [|lia]. by rewrite take_ge by lia.
Qed.

Lemma lstrip_suffix (s : str) : exists pre, s = pre ++ lstrip s.
Proof.
  induction s as [|c s [pre IH]]; simpl; [by exists []|].
  destruct (isspace c); [|by exists []].
  exists (c :: pre). simpl. by rewrite <- IH.
Qed.

Lemma lstrip_head (s : str) (c : N) (m : str) :
  lstrip s = c :: m -> isspace c = false.
Proof.
  induction s as [|a s IH]; simpl; [done|].
  destruct (isspace a) eqn:Ha; [done|]. by intros [= <- _].
Qed.

(** What [strip] returns begins and ends with a character that is not
    whitespace, and is a piece of the input. *)
Lemma strip_trimmed (s : str) (c : N) (m : str) :
  strip s = c :: m ->
  isspace c = false
  /\ (exists d, last (c :: m) = Some d /\ isspace d = false)
  /\ exists pre post, s = pre ++ (c :: m) ++ post.
Proof.
  unfold strip, rstrip. intros H.
  destruct (lstrip_suffix s) as [pre Hpre].
  destruct (lstrip_suffix (rev (lstrip s))) as [p Hp].
  assert (Hx : lstrip s = (c :: m) ++ rev p).
  { rewrite <- H, <- rev_app_distr, <- Hp. by rewrite rev_involutive. }
  split; [|split].
  - by apply (lstrip_head s c (m ++ rev p)).
  - destruct (lstrip (rev (lstrip s))) as [|d l] eqn:Hy; [done|].
    exists d. split.
    + rewrite <- H. simpl. apply last_snoc.
    + by apply (lstrip_head (rev (lstrip s)) d l).
  - exists pre, (rev p). rewrite Hpre at 1. by rewrite Hx.
Qed.

(** X14: with the backend available, sending a message that is not blank
    clears the input field, adds one user bubble and no other, delivers
    nothing, and starts exactly one worker thread, for the message
    without its surrounding whitespace: the text sent begins and ends
    with a character that is not whitespace and is a piece of what was
    typed. *)
Theorem X14_send_starts_one_thread_with_stripped_text (cfg : Config)
    (st : Screen) (c : N) (m : str) :
  strip (text_input st) = c :: m ->
  backend_available st = true ->
  let st' := send_message cfg st in
  threads st' = threads st ++ [Th_send (c :: m)]
  /\ text_input st' = []
  /\ heap st' = heap st ++ [mkBubble (c :: m) true]
  /\ batches st' = batches st
  /\ _pending_chunks st' = _pending_chunks st
  /\ isspace c = false
  /\ (exists d, last (c :: m) = Some d /\ isspace d = false)
  /\ exists pre post, text_input st = pre ++ (c :: m) ++ post.
Proof.
  intros Hs Hb st'. destruct (strip_trimmed _ _ _ Hs) as (Hc & Hl & Hp).
  assert (H : threads st' = threads st ++ [Th_send (c :: m)]
    /\ text_input st' = []
    /\ heap st' = heap st ++ [mkBubble (c :: m) true]
    /\ batches st' = batches st
    /\ _pending_chunks st' = _pending_chunks st).
  2: { destruct H as (? & ? & ? & ? & ?). by repeat split. }
  unfold st'. rewrite (send_message_nonblank cfg st c m Hs). cbv zeta.
  set (st3 := add_widget _ _).
  destruct (scroll_to_bottom_frame cfg false st3)
    as (Hh & _ & _ & Hba & _ & Hti & _ & Hpc & _ & Hth & _ & Hbt).
  destruct (cleanup_children_only cfg (_scroll_to_bottom cfg false st3))
    as [l ->].
  set (st5 := set_children l _).
  assert (Hb5 : backend_available st5 = true) by (simpl; by rewrite Hba).
  rewrite Hb5. simpl. by rewrite Hth, Hti, Hh, Hbt, Hpc.
Qed.

(** ** Scrolling and trimming *)

(** X15: a scroll request is never dropped.  After [_scroll_to_bottom],
    forced or not, either the scroll was performed at once (and the time
    recorded), or nothing was scrolled and exactly one deferred scroll
    waits in the clock queue. *)
Theorem X15_scroll_request_performed_or_queued (cfg : Config) (force : bool)
    (st : Screen) :
  scroll_ok st ->
  let st' := _scroll_to_bottom cfg force st in
  scrolls st' = scrolls st ++ [now st] /\ _last_scroll_time st' = now st
  \/ scrolls st' = scrolls st
     /\ _scroll_scheduled st' = true
     /\ pending_count T_do_throttled_scroll (clock st') = 1%nat.
Proof.
  intros HS st'. unfold st'.
  destruct (scroll_to_bottom_outcome cfg force st) as [_|_ _ Hs|_ _ Hs].
  - by left.
  - right. simpl. rewrite pending_count_snoc. unfold scroll_ok in HS.
    by rewrite HS, Hs.
  - right. unfold scroll_ok in HS. by rewrite HS, Hs.
Qed.

(** [_cleanup_old_messages] for any capacity, negative ones included. *)
Lemma cleanup_spec_any (cfg : Config) (st : Screen) :
  NoDup (children st) ->
  _cleanup_old_messages cfg st
  = set_children (take (Z.to_nat (max_messages cfg)) (children st)) st.
Proof.
  intros Hnd. unfold _cleanup_old_messages.
  destruct (max_messages cfg <? _) eqn:Hlt.
  - apply Z.ltb_lt in Hlt.
    rewrite iter_remove_oldest, iter_drop_oldest by done.
    do 2 f_equal. lia.
  - apply Z.ltb_ge in Hlt. rewrite take_ge by lia.
    by rewrite set_children_id.
Qed.

(** X16: [_cleanup_old_messages] is idempotent, and a capacity that is
    zero or negative empties the history without an error: the loop
    would remove more widgets than there are, and stops taking them once
    none is left. *)
Theorem X16_cleanup_idempotent_and_nonpositive_capacity (cfg : Config)
    (st : Screen) :
  NoDup (children st) ->
  let st' := _cleanup_old_messages cfg st in
  _cleanup_old_messages cfg st' = st'
  /\ (max_messages cfg <= 0 -> children st' = [])
  /\ (Z.of_nat (length (children st)) <= max_messages cfg -> st' = st).
Proof.
  intros Hnd st'. unfold st'. rewrite (cleanup_spec_any cfg st Hnd).
  split; [|split].
  - rewrite cleanup_spec_any; simpl.
    + by rewrite take_take, Nat.min_id.
    + apply (sublist_NoDup _ (children st)); [done|apply sublist_take].
  - intros Hmax. simpl. replace (Z.to_nat (max_messages cfg)) with 0%nat
      by lia. done.
  - intros Hle. rewrite take_ge by lia. apply set_children_id.
Qed.

(** ** Bubble texts only grow *)

Lemma texts_grow_refl (st : Screen) : texts_grow st st.
Proof.
  intros w [t u] Ho. exists []. simpl. by rewrite app_nil_r.
Qed.

Lemma texts_grow_trans (st1 st2 st3 : Screen) :
  texts_grow st1 st2 -> texts_grow st2 st3 -> texts_grow st1 st3.
Proof.
  intros H12 H23 w o Ho. destruct (H12 w o Ho) as (t1 & Ho2 & Hu1).
  destruct (H23 w _ Ho2) as (t2 & Ho3 & Hu2). simpl in *.
  exists (t1 ++ t2). split; [by rewrite app_assoc|].
  intros Hu. by rewrite (Hu1 Hu), (Hu2 Hu).
Qed.

Lemma texts_grow_same (st st' : Screen) :
  heap st' = heap st -> texts_grow st st'.
Proof.
  intros Hh w o Ho. rewrite Hh. by apply texts_grow_refl.
Qed.

Lemma texts_grow_new (st st' : Screen) (o : ModernBubble) :
  heap st' = heap st ++ [o] -> texts_grow st st'.
Proof.
  intros Hh w [t u] Ho. exists []. simpl. rewrite app_nil_r, Hh.
  split; [|done]. by apply lookup_app_l_Some.
Qed.

Lemma scroll_to_bottom_texts (cfg : Config) (f : bool) (st : Screen) :
  texts_grow st (_scroll_to_bottom cfg f st).
Proof.
  apply texts_grow_same. by destruct (scroll_to_bottom_frame cfg f st).
Qed.

Lemma send_message_texts (cfg : Config) (st : Screen) :
  texts_grow st (send_message cfg st)
  /\ current_bubble (send_message cfg st) = current_bubble st.
Proof.
  unfold send_message. destruct (strip _) as [|c m];
    [split; [apply texts_grow_refl|done]|].
  cbv zeta. unfold new_bubble. cbv iota beta.
  set (st3 := add_widget _ _).
  assert (H3 : texts_grow st st3)
    by by apply (texts_grow_new _ _ (mkBubble (c :: m) true)).
  assert (Hb3 : current_bubble st3 = current_bubble st) by done.
  clearbody st3.
  destruct (scroll_to_bottom_frame cfg false st3) as (Hh4 & _ & Hb4 & _).
  destruct (cleanup_children_only cfg (_scroll_to_bottom cfg false st3))
    as [l ->].
  set (st5 := set_children l _).
  assert (H5 : texts_grow st st5).
  { apply (texts_grow_trans _ _ _ H3). by apply texts_grow_same. }
  assert (Hb5 : current_bubble st5 = current_bubble st)
    by (simpl; by rewrite Hb4).
  clearbody st5. destruct (backend_available st5).
  - split; [|done]. apply (texts_grow_trans _ _ _ H5).
    by apply texts_grow_same.
  - unfold _show_demo_response, new_bubble. cbv iota beta zeta.
    set (st7 := add_widget _ _).
    destruct (scroll_to_bottom_frame cfg false st7) as (Hh8 & _ & Hb8 & _).
    split; [|by rewrite Hb8].
    apply (texts_grow_trans _ _ _ H5).
    apply (texts_grow_new _ _ (mkBubble (demo_text (c :: m)) false)).
    by rewrite Hh8.
Qed.

Lemma show_error_message_texts (cfg : Config) (m : str) (st : Screen) :
  texts_grow st (_show_error_message cfg m st)
  /\ current_bubble (_show_error_message cfg m st) = current_bubble st.
Proof.
  unfold _show_error_message, new_bubble. cbv iota beta zeta.
  set (st2 := add_widget _ _).
  destruct (scroll_to_bottom_frame cfg false st2) as (Hh & _ & Hb & _).
  split; [|simpl; by rewrite Hb].
  apply (texts_grow_new _ _ (mkBubble (10060%N :: 32%N :: m) false)).
  simpl. by rewrite Hh.
Qed.

Lemma append_chunk_batch_texts (cfg : Config) (t : str) (st : Screen) :
  wf_history st -> current_is_ai st ->
  texts_grow st (_append_chunk_batch cfg t st)
  /\ current_is_ai (_append_chunk_batch cfg t st).
Proof.
  intros Hwf Hai. destruct (current_bubble st) as [b|] eqn:Hb.
  - assert (Hlt : (b < length (heap st))%nat) by by apply Hwf.
    destruct (lookup_lt_is_Some_2 _ _ Hlt) as [o Ho].
    destruct (append_chunk_batch_current cfg t st b o Hb Ho)
      as (Hb' & _ & Hh').
    pose proof (Hai b o Hb Ho) as Hu. split.
    + intros w o' Ho'. rewrite Hh'.
      destruct (decide (w = b)) as [->|Hne].
      * rewrite Ho in Ho'. injection Ho' as <-. exists t.
        rewrite list_lookup_insert_eq by done. split; [done|].
        by rewrite Hu.
      * rewrite list_lookup_insert_ne by done.
        by apply texts_grow_refl.
    + intros b' o' Hb'' Ho''. rewrite Hb' in Hb''. injection Hb'' as <-.
      rewrite Hh', list_lookup_insert_eq in Ho'' by done.
      by injection Ho'' as <-.
  - destruct (append_chunk_batch_fresh cfg t st Hb) as (Hb' & _ & Hh').
    split; [by apply (texts_grow_new _ _ (mkBubble t false))|].
    intros b' o' Hb'' Ho''. rewrite Hb' in Hb''. injection Hb'' as <-.
    rewrite Hh', list_lookup_middle in Ho'' by done.
    by injection Ho'' as <-.
Qed.

Lemma current_is_ai_grow (st st' : Screen) :
  wf_history st -> current_is_ai st -> texts_grow st st' ->
  current_bubble st' = current_bubble st -> current_is_ai st'.
Proof.
  intros Hwf Hai Hg Hb b o Hb' Ho'. rewrite Hb in Hb'.
  assert (Hlt : (b < length (heap st))%nat) by by apply Hwf.
  destruct (lookup_lt_is_Some_2 _ _ Hlt) as [o0 Ho0].
  destruct (Hg b o0 Ho0) as (t & Ho1 & _). rewrite Ho1 in Ho'.
  injection Ho' as <-. simpl. by apply (Hai b o0).
Qed.

Lemma run_task_texts (cfg : Config) (cb : task) (st : Screen) :
  wf_history st -> current_is_ai st ->
  texts_grow st (run_task cfg cb st)
  /\ current_is_ai (run_task cfg cb st).
Proof.
  intros Hwf Hai.
  assert (Hkeep : forall st', texts_grow st st' ->
            current_bubble st' = current_bubble st ->
            texts_grow st st' /\ current_is_ai st')
    by (intros st' Hg Hb; split; [done|];
        by apply (current_is_ai_grow st)).
  destruct cb; cbn [run_task].
  - apply Hkeep; [apply scroll_to_bottom_texts|].
    by destruct (scroll_to_bottom_frame cfg true st) as (_ & _ & -> & _).
  - by apply Hkeep; [apply texts_grow_same|].
  - by apply Hkeep; [apply texts_grow_same|].
  - unfold _process_batched_chunks.
    destruct (_pending_chunks st) as [|c l];
      [by apply Hkeep; [apply texts_grow_same|]|].
    cbv zeta.
    by destruct (append_chunk_batch_texts cfg (concat (c :: l))
                   (set_pending_chunks [] st)) as [Hg Hai'].
  - by apply Hkeep; [apply texts_grow_same|].
  - by apply Hkeep; [apply texts_grow_same|].
  - destruct (show_error_message_texts cfg error_msg st) as [Hg Hb].
    by apply Hkeep.
  - by apply Hkeep; [apply texts_grow_same|].
Qed.

Lemma step_texts (cfg : Config) (lower : str -> str) (st : Screen)
    (ev : input) :
  wf_history st -> current_is_ai st ->
  texts_grow st (step cfg lower st ev)
  /\ current_is_ai (step cfg lower st ev).
Proof.
  intros Hwf Hai.
  assert (Hkeep : forall st', texts_grow st st' ->
            current_bubble st' = current_bubble st ->
            texts_grow st st' /\ current_is_ai st')
    by (intros st' Hg Hb; split; [done|];
        by apply (current_is_ai_grow st)).
  destruct ev as [d|i|cs|s| |i a]; cbn [step].
  - by apply Hkeep; [apply texts_grow_same|].
  - unfold clock_fire. destruct (clock st !! i) as [[due cb]|];
      [|by apply Hkeep; [apply texts_grow_refl|]].
    destruct (due <=? now st);
      [|by apply Hkeep; [apply texts_grow_refl|]].
    exact (run_task_texts cfg cb (set_clock (delete i (clock st)) st)
             Hwf Hai).
  - destruct (monitor_frame cfg cs st) as (Hh & _ & Hb & _).
    by apply Hkeep; [apply texts_grow_same|].
  - by apply Hkeep; [apply texts_grow_same|].
  - destruct (send_message_texts cfg st) as [Hg Hb]. by apply Hkeep.
  - unfold worker_step, _on_chunk.
    destruct (threads st !! i) as [[|m]|]; destruct a as [[[|]|]|c| |e];
      try (by apply Hkeep; [apply texts_grow_same|]).
    + cbv zeta. destruct (negb _);
        by apply Hkeep; [apply texts_grow_same|].
    + split; [by apply texts_grow_same|]. by intros b o.
Qed.

(** X17: what a bubble shows is never taken back.  Along every run of the
    screen from any state it reached, each bubble that existed keeps
    existing (also after it left the history), keeps its author, and
    keeps its text as the beginning of its later text; the text of a user
    bubble does not change at all. *)
Theorem X17_bubble_texts_only_grow (cfg : Config) (lower : str -> str)
    (evs0 evs : list input) (t0 : Z) (w : ref) (o : ModernBubble) :
  let st := run cfg lower evs0 (init cfg t0) in
  let st' := run cfg lower evs st in
  heap st !! w = Some o ->
  exists t,
    heap st' !! w = Some (mkBubble (text o ++ t) (is_user o))
    /\ (is_user o = true -> t = []).
Proof.
  intros st st'.
  assert (Hrun : forall evs s,
    wf_history s -> current_is_ai s ->
    wf_history (run cfg lower evs s) /\ current_is_ai (run cfg lower evs s)
    /\ texts_grow s (run cfg lower evs s)).
  { unfold run. clear. intros evs.
    induction evs as [|ev evs IH]; intros s Hwf Hai; simpl.
    - split; [done|]. split; [done|]. apply texts_grow_refl.
    - destruct (step_texts cfg lower s ev Hwf Hai) as [Hg Hai'].
      destruct (IH _ (wf_history_step cfg lower s ev Hwf) Hai')
        as (Hwf2 & Hai2 & Hg2).
      split; [done|]. split; [done|]. by eapply texts_grow_trans. }
  assert (H0 : wf_history (init cfg t0) /\ current_is_ai (init cfg t0)).
  { split; [|by intros b o'].
    repeat split; simpl; [apply NoDup_singleton|by repeat constructor|done]. }
  destruct H0 as [Hwf0 Hai0].
  destruct (Hrun evs0 _ Hwf0 Hai0) as (Hwf & Hai & _). fold st in Hwf, Hai.
  destruct (Hrun evs _ Hwf Hai) as (_ & _ & Hg). exact (Hg w o).
Qed.

(** ** Reachable states *)

Lemma step_flag_has_chunks (cfg : Config) (lower : str -> str)
    (st : Screen) (ev : input) :
  (_text_update_scheduled st = true -> _pending_chunks st <> []) ->
  _text_update_scheduled (step cfg lower st ev) = true ->
  _pending_chunks (step cfg lower st ev) <> [].
Proof.
  intros H.
  assert (Hl : forall st', leaves_coalescer st st' ->
            _text_update_scheduled st' = true -> _pending_chunks st' <> []).
  { intros st' (Hp & Hf & _). rewrite Hp, Hf. exact H. }
  destruct ev as [d|i|cs|s| |i a]; cbn [step].
  - exact H.
  - unfold clock_fire. destruct (clock st !! i) as [[due cb]|]; [|exact H].
    destruct (due <=? now st); [|exact H].
    set (st1 := set_clock _ st).
    assert (Hl1 : forall st', leaves_coalescer st1 st' ->
              _text_update_scheduled st' = true ->
              _pending_chunks st' <> []).
    { intros st' (Hp & Hf & _). rewrite Hp, Hf. exact H. }
    clearbody st1. destruct cb; cbn [run_task];
      first
        [ apply Hl1, scroll_to_bottom_leaves
        | apply Hl1, show_error_message_leaves
        | by destruct (process_batched_chunks_streamed cfg st1)
            as (_ & _ & ->)
        | exact (Hl1 st1 (leaves_coalescer_refl st1)) ].
  - apply Hl, monitor_leaves.
  - exact H.
  - apply Hl, send_message_leaves.
  - unfold worker_step, _on_chunk.
    destruct (threads st !! i) as [[|m]|]; destruct a as [[[|]|]|c| |e];
      try exact H.
    cbv zeta. intros _. destruct (negb _); simpl;
      by destruct (_pending_chunks st).
Qed.

Lemma run_flag_has_chunks (cfg : Config) (lower : str -> str)
    (evs : list input) (st : Screen) :
  (_text_update_scheduled st = true -> _pending_chunks st <> []) ->
  _text_update_scheduled (run cfg lower evs st) = true ->
  _pending_chunks (run cfg lower evs st) <> [].
Proof.
  unfold run. revert st.
  induction evs as [|ev evs IH]; intros st H; [done|].
  simpl. by apply IH, step_flag_has_chunks.
Qed.


(** ** Platform profiles and start-up configuration *)

Section PlatformProperties.

Local Open Scope string_scope.

Lemma dict_get_set {V : Type} (k k' : string) (v : V) (d : dict V) :
  dict_get k' (dict_set k v d)
  = if decide (k' = k) then Some v else dict_get k' d.
Proof.
  induction d as [|[k0 v0] d IH]; simpl.
  - destruct (decide (k = k')), (decide (k' = k)); congruence.
  - destruct (decide (k0 = k)) as [->|Hne]; simpl.
    + destruct (decide (k = k')), (decide (k' = k)); congruence.
    + destruct (decide (k0 = k')) as [->|Hne'].
      * destruct (decide (k' = k)); congruence.
      * exact IH.
Qed.

Lemma dict_get_del {V : Type} (k k' : string) (d : dict V) :
  dict_get k' (dict_del k d)
  = if decide (k' = k) then None else dict_get k' d.
Proof.
  induction d as [|[k0 v0] d IH]; simpl.
  - by destruct (decide (k' = k)).
  - destruct (decide (k0 = k)) as [->|Hne]; simpl.
    + rewrite IH. destruct (decide (k' = k)) as [->|Hne]; [done|].
      destruct (decide (k = k')); congruence.
    + destruct (decide (k0 = k')) as [->|Hne'].
      * destruct (decide (k' = k)); congruence.
      * exact IH.
Qed.

Lemma dict_keys_set {V : Type} (k : string) (v : V) (d : dict V) :
  is_Some (dict_get k d) -> dict_keys (dict_set k v d) = dict_keys d.
Proof.
  unfold dict_keys. induction d as [|[k0 v0] d IH]; simpl.
  - by intros [? ?].
  - destruct (decide (k0 = k)) as [->|Hne]; simpl; [done|].
    intros H. f_equal. by apply IH.
Qed.

(** What a write to an existing section does. *)
Lemma config_set_spec (s o v : string) (c : KivyConfig) :
  is_Some (dict_get s c) ->
  exists c',
    config_set s o v c = Some c'
    /\ dict_keys c' = dict_keys c
    /\ (forall s', is_Some (dict_get s' c') <-> is_Some (dict_get s' c))
    /\ forall s' o',
         config_get s' o' c'
         = if decide (s' = s /\ o' = o) then Some v
           else config_get s' o' c.
Proof.
  intros [opts Hs]. unfold config_set. rewrite Hs. eexists.
  split; [done|]. split; [by apply dict_keys_set|]. split.
  - intros s'. rewrite dict_get_set.
    destruct (decide (s' = s)) as [->|]; [|done]. by rewrite Hs.
  - intros s' o'. unfold config_get. rewrite dict_get_set.
    destruct (decide (s' = s)) as [->|Hne].
    + rewrite dict_get_set, Hs. destruct (decide (o' = o)) as [->|Hno].
      * by rewrite decide_True.
      * rewrite decide_False; [done|]. by intros [_ ?].
    + rewrite decide_False; [done|]. by intros [? _].
Qed.

Lemma config_remove_option_spec (s o : string) (c : KivyConfig) :
  is_Some (dict_get s c) ->
  exists c',
    config_remove_option s o c = Some c'
    /\ dict_keys c' = dict_keys c
    /\ (forall s', is_Some (dict_get s' c') <-> is_Some (dict_get s' c))
    /\ forall s' o',
         config_get s' o' c'
         = if decide (s' = s /\ o' = o) then None
           else config_get s' o' c.
Proof.
  intros [opts Hs]. unfold config_remove_option. rewrite Hs. eexists.
  split; [done|]. split; [by apply dict_keys_set|]. split.
  - intros s'. rewrite dict_get_set.
    destruct (decide (s' = s)) as [->|]; [|done]. by rewrite Hs.
  - intros s' o'. unfold config_get. rewrite dict_get_set.
    destruct (decide (s' = s)) as [->|Hne].
    + rewrite dict_get_del, Hs. destruct (decide (o' = o)) as [->|Hno].
      * by rewrite decide_True.
      * rewrite decide_False; [done|]. by intros [_ ?].
    + rewrite decide_False; [done|]. by intros [? _].
Qed.

Lemma config_set_missing (s o v : string) (c : KivyConfig) :
  dict_get s c = None -> config_set s o v c = None.
Proof. intros H. unfold config_set. by rewrite H. Qed.

Lemma apply_op_spec (op : config_op) (c : KivyConfig) :
  is_Some (dict_get (op_target op).1 c) ->
  exists c',
    apply_op op c = Some c'
    /\ dict_keys c' = dict_keys c
    /\ (forall s', is_Some (dict_get s' c') <-> is_Some (dict_get s' c))
    /\ forall s o, config_get s o c' = effect [op] s o (config_get s o c).
Proof.
  intros Hs. destruct op as [s0 o0 v|s0 o0]; simpl in *.
  - destruct (config_set_spec s0 o0 v c Hs) as (c' & -> & Hk & Hsec & Hg).
    exists c'. repeat split; try done; try apply Hsec.
    intros s o. rewrite Hg. unfold effect. simpl.
    destruct (decide (s = s0 /\ o = o0)) as [[-> ->]|Hne].
    + by rewrite decide_True.
    + rewrite decide_False; [done|]. intros [= -> ->]. by apply Hne.
  - destruct (config_remove_option_spec s0 o0 c Hs)
      as (c' & -> & Hk & Hsec & Hg).
    exists c'. repeat split; try done; try apply Hsec.
    intros s o. rewrite Hg. unfold effect. simpl.
    destruct (decide (s = s0 /\ o = o0)) as [[-> ->]|Hne].
    + by rewrite decide_True.
    + rewrite decide_False; [done|]. intros [= -> ->]. by apply Hne.
Qed.

(** A sequence of calls on sections that exist succeeds, keeps the
    sections, and leaves each option with the value of the last call that
    names it. *)
Lemma run_ops_spec (ops : list config_op) (c : KivyConfig) :
  Forall (fun op => is_Some (dict_get (op_target op).1 c)) ops ->
  exists c',
    run_ops ops c = Some c'
    /\ dict_keys c' = dict_keys c
    /\ (forall s', is_Some (dict_get s' c') <-> is_Some (dict_get s' c))
    /\ forall s o, config_get s o c' = effect ops s o (config_get s o c).
Proof.
  revert c. induction ops as [|op ops IH]; intros c Hall.
  - exists c. by repeat split.
  - apply Forall_cons in Hall as [Hop Hall].
    destruct (apply_op_spec op c Hop) as (c1 & H1 & Hk1 & Hs1 & Hg1).
    destruct (IH c1) as (c2 & H2 & Hk2 & Hs2 & Hg2).
    { eapply Forall_impl; [exact Hall|]. intros op' H'. by apply Hs1. }
    exists c2. split.
    + unfold run_ops in *. simpl. by rewrite H1.
    + split; [congruence|]. split.
      * intros s'. by rewrite Hs2, Hs1.
      * intros s o. rewrite Hg2, Hg1. done.
Qed.

(** A call on a section that does not exist fails, and so does the
    sequence. *)
Lemma run_ops_missing (ops1 ops2 : list config_op) (op : config_op)
    (c : KivyConfig) :
  dict_get (op_target op).1 c = None ->
  run_ops (ops1 ++ op :: ops2) c = None.
Proof.
  intros Hmiss.
  assert (Hnone : forall l, foldl (fun acc op => and_then acc (apply_op op))
                              None l = None)
    by (induction l; simpl; auto).
  assert (Hop : forall c', dict_get (op_target op).1 c' = None ->
            apply_op op c' = None).
  { intros c' H. destruct op; simpl in *.
    - by apply config_set_missing.
    - unfold config_remove_option. by rewrite H. }
  unfold run_ops. rewrite foldl_app. simpl.
  destruct (foldl _ (Some c) ops1) as [c1|] eqn:H1; simpl;
    [|apply Hnone].
  rewrite Hop; [apply Hnone|].
  clear Hop Hnone. revert c H1 Hmiss.
  induction ops1 as [|op1 ops1 IH]; intros c H1 Hmiss; simpl in H1.
  - by injection H1 as <-.
  - destruct (apply_op op1 c) as [c0|] eqn:H0.
    + apply (IH c0); [done|].
      destruct (dict_get (op_target op1).1 c) eqn:Hs1.
      * destruct (apply_op_spec op1 c) as (c0' & H0' & _ & Hsec & _);
          [by rewrite Hs1|].
        rewrite H0 in H0'. injection H0' as <-.
        destruct (dict_get (op_target op).1 c0) eqn:Hc0; [|done].
        assert (is_Some (dict_get (op_target op).1 c)) as [? ?]
          by (apply Hsec; by rewrite Hc0).
        congruence.
      * destruct op1; simpl in *.
        -- by rewrite config_set_missing in H0.
        -- unfold config_remove_option in H0. by rewrite Hs1 in H0.
    + simpl in H1.
      assert (Hn : foldl (fun acc op => and_then acc (apply_op op))
                     None ops1 = None) by (clear; induction ops1; simpl; auto).
      congruence.
Qed.

Lemma run_ops_app (ops1 ops2 : list config_op) (c : KivyConfig) :
  run_ops (ops1 ++ ops2) c = and_then (run_ops ops1 c) (run_ops ops2).
Proof.
  unfold run_ops. rewrite foldl_app.
  destruct (foldl _ (Some c) ops1) as [c1|]; simpl; [done|].
  induction ops2; simpl; auto.
Qed.

(** The two functions are their sequences of calls. *)
Lemma configure_kivy_ops (platform : Platform)
    (getenv : string -> option string) (int_of_str : string -> option Z)
    (MIN_WIDTH MIN_HEIGHT : string) (c : KivyConfig) :
  configure_kivy platform getenv int_of_str MIN_WIDTH MIN_HEIGHT c
  = match get_window_size platform getenv int_of_str with
    | Some (width, height) =>
        run_ops (kivy_ops MIN_WIDTH MIN_HEIGHT width height) c
    | None => None
    end.
Proof.
  unfold configure_kivy, kivy_ops.
  destruct (get_window_size _ _ _) as [[width height]|]; [|done].
  rewrite run_ops_app.
  destruct (truthy width && truthy height); simpl.
  - unfold run_ops. simpl.
    destruct (config_set "graphics" "width" _ c) as [c1|]; simpl; [|done].
    destruct (config_set "graphics" "height" _ c1) as [c2|]; simpl; [|done].
    destruct (config_set "graphics" "minimum_width" _ c2) as [c3|]; simpl;
      [|done].
    by destruct (config_set "graphics" "minimum_height" _ c3).
  - done.
Qed.

Lemma configure_for_mobile_ops (platform : Platform) (c : KivyConfig) :
  configure_for_mobile platform c = run_ops (mobile_ops platform) c.
Proof. by destruct platform. Qed.

Lemma configure_at_import_ops (platform : Platform)
    (getenv : string -> option string) (int_of_str : string -> option Z)
    (MIN_WIDTH MIN_HEIGHT : string) (c : KivyConfig) :
  configure_at_import platform getenv int_of_str MIN_WIDTH MIN_HEIGHT c
  = match get_window_size platform getenv int_of_str with
    | Some (width, height) =>
        run_ops (kivy_ops MIN_WIDTH MIN_HEIGHT width height
                 ++ mobile_ops platform) c
    | None => None
    end.
Proof.
  unfold configure_at_import. rewrite configure_kivy_ops.
  destruct (get_window_size _ _ _) as [[width height]|]; [|done].
  rewrite run_ops_app.
  destruct (run_ops (kivy_ops _ _ _ _) c) as [c1|]; simpl; [|done].
  apply configure_for_mobile_ops.
Qed.

End PlatformProperties.

Section StartUp.

Local Open Scope string_scope.

Variable V : Type.
Variable dp : Z -> V.
Variable getenv : string -> option string.
Variable int_of_str : string -> option Z.
Variable MIN_WIDTH MIN_HEIGHT : string.

(** X19: the profile tables have the same keys on every platform (and no
    key twice), so a key that can be read on one platform can be read on
    all of them; the tables depend on the platform only through it being
    mobile or not. *)
Theorem X19_profiles_have_the_same_keys (p q : Platform) (k : string) :
  dict_keys (get_spacing p V dp) = dict_keys (get_spacing q V dp)
  /\ dict_keys (get_sizes p V dp) = dict_keys (get_sizes q V dp)
  /\ dict_keys (get_websocket_config p)
     = dict_keys (get_websocket_config q)
  /\ NoDup (dict_keys (get_spacing p V dp))
  /\ NoDup (dict_keys (get_sizes p V dp))
  /\ NoDup (dict_keys (get_websocket_config p))
  /\ (is_Some (dict_get k (get_sizes p V dp))
      <-> is_Some (dict_get k (get_sizes q V dp)))
  /\ (IS_MOBILE p = IS_MOBILE q ->
      get_spacing p V dp = get_spacing q V dp
      /\ get_sizes p V dp = get_sizes q V dp
      /\ get_websocket_config p = get_websocket_config q).
Proof.
  assert (Hnd : forall l : list string,
            bool_decide (NoDup l) = true -> NoDup l)
    by (intros l; apply bool_decide_eq_true).
  split; [by destruct p, q|]. split; [by destruct p, q|].
  split; [by destruct p, q|].
  split; [destruct p; by apply Hnd|].
  split; [destruct p; by apply Hnd|].
  split; [destruct p; by apply Hnd|].
  split.
  - unfold get_sizes. destruct (IS_MOBILE p), (IS_MOBILE q); simpl;
      repeat (destruct (decide (_ = k)); [by split; eexists|]); done.
  - unfold get_spacing, get_sizes, get_websocket_config. by intros ->.
Qed.

(** X20: the mobile profile is the touch-friendly one: under a [dp] that
    keeps the order of its arguments, every spacing and every size of a
    mobile platform is larger than the one of the same name on a desktop
    platform. *)
Theorem X20_mobile_sizes_larger (lt : V -> V -> Prop) (p q : Platform)
    (k : string) (vm vd : V) :
  (forall a b : Z, (a < b)%Z -> lt (dp a) (dp b)) ->
  IS_MOBILE p = true -> IS_MOBILE q = false ->
  (dict_get k (get_spacing p V dp) = Some vm ->
   dict_get k (get_spacing q V dp) = Some vd -> lt vd vm)
  /\ (dict_get k (get_sizes p V dp) = Some vm ->
      dict_get k (get_sizes q V dp) = Some vd -> lt vd vm).
Proof.
  intros Hdp Hp Hq. unfold get_spacing, get_sizes. rewrite Hp, Hq. simpl.
  split; repeat (destruct (decide (_ = k));
                 [intros [= <-] [= <-]; by apply Hdp|]); done.
Qed.

Lemma has_sections_ops (c : KivyConfig) (platform : Platform)
    (width height : option Z) :
  has_sections c ->
  Forall (fun op => is_Some (dict_get (op_target op).1 c))
    (kivy_ops MIN_WIDTH MIN_HEIGHT width height ++ mobile_ops platform).
Proof.
  intros (Hg & Hk & Hi). unfold kivy_ops, mobile_ops.
  destruct (truthy width && truthy height), platform; simpl;
    repeat constructor; done.
Qed.

(** X21: on Android the start-up configuration succeeds whatever the
    environment holds (the window size variables are not read), removes
    the window width and height, sets the keyboard mode, and leaves the
    mouse provider as [configure_for_mobile] sets it, not as
    [configure_kivy] did; the minimum window sizes are not written. *)
Theorem X21_android_configuration (c : KivyConfig) :
  has_sections c ->
  exists c',
    configure_at_import android getenv int_of_str MIN_WIDTH MIN_HEIGHT c
    = Some c'
    /\ config_get "graphics" "width" c' = None
    /\ config_get "graphics" "height" c' = None
    /\ config_get "kivy" "keyboard_mode" c' = Some "systemandmulti"
    /\ config_get "input" "mouse" c' = Some "mouse,disable_multitouch"
    /\ config_get "kivy" "log_level" c' = Some "critical"
    /\ config_get "graphics" "minimum_width" c'
       = config_get "graphics" "minimum_width" c
    /\ config_get "graphics" "minimum_height" c'
       = config_get "graphics" "minimum_height" c.
Proof.
  intros Hsec. rewrite configure_at_import_ops.
  change (get_window_size android getenv int_of_str)
    with (Some (@None Z, @None Z)).
  destruct (run_ops_spec _ c (has_sections_ops c android None None Hsec))
    as (c' & -> & _ & _ & Hg).
  exists c'. split; [done|]. rewrite !Hg. by repeat split.
Qed.

(** X22: on a desktop platform the window size comes from the
    environment, 400 by 600 when unset.  If both numbers are not zero,
    width, height and the two minimum sizes are written; if one of them
    is zero, none of the four is written; if one does not read as an
    integer, the configuration fails.  The mouse provider stays as
    [configure_kivy] sets it. *)
Theorem X22_desktop_window_configuration (platform : Platform)
    (c : KivyConfig) :
  IS_MOBILE platform = false -> has_sections c ->
  match int_of_str (getenv_default getenv "CHAT_WINDOW_WIDTH" "400"),
        int_of_str (getenv_default getenv "CHAT_WINDOW_HEIGHT" "600") with
  | Some width, Some height =>
      exists c',
        configure_at_import platform getenv int_of_str MIN_WIDTH
          MIN_HEIGHT c = Some c'
        /\ config_get "input" "mouse" c' = Some "mouse,multitouch_on_demand"
        /\ config_get "kivy" "keyboard_mode" c'
           = config_get "kivy" "keyboard_mode" c
        /\ if ((width =? 0) || (height =? 0))%Z then
             config_get "graphics" "width" c'
             = config_get "graphics" "width" c
             /\ config_get "graphics" "height" c'
                = config_get "graphics" "height" c
             /\ config_get "graphics" "minimum_width" c'
                = config_get "graphics" "minimum_width" c
             /\ config_get "graphics" "minimum_height" c'
                = config_get "graphics" "minimum_height" c
           else
             config_get "graphics" "width" c' = Some (str_of_int width)
             /\ config_get "graphics" "height" c'
                = Some (str_of_int height)
             /\ config_get "graphics" "minimum_width" c' = Some MIN_WIDTH
             /\ config_get "graphics" "minimum_height" c'
                = Some MIN_HEIGHT
  | _, _ =>
      configure_at_import platform getenv int_of_str MIN_WIDTH MIN_HEIGHT c
      = None
  end.
Proof.
  intros Hp Hsec. rewrite configure_at_import_ops.
  unfold get_window_size. rewrite Hp.
  destruct (int_of_str (getenv_default getenv "CHAT_WINDOW_WIDTH" "400"))
    as [width|]; [|done].
  destruct (int_of_str (getenv_default getenv "CHAT_WINDOW_HEIGHT" "600"))
    as [height|]; [|done].
  destruct (run_ops_spec _ c
              (has_sections_ops c platform (Some width) (Some height) Hsec))
    as (c' & -> & _ & _ & Hg).
  exists c'. split; [done|]. rewrite !Hg.
  unfold kivy_ops, mobile_ops, truthy.
  destruct platform; try discriminate Hp;
    destruct (width =? 0)%Z, (height =? 0)%Z; by repeat split.
Qed.

Lemma run_ops_some (ops : list config_op) (c c' : KivyConfig) :
  run_ops ops c = Some c' ->
  Forall (fun op => is_Some (dict_get (op_target op).1 c)) ops.
Proof.
  intros Hrun. apply Forall_forall. intros op Hin.
  destruct (dict_get (op_target op).1 c) eqn:Hs; [done|].
  apply list_elem_of_split in Hin as (ops1 & ops2 & ->).
  by rewrite (run_ops_missing ops1 ops2 op c Hs) in Hrun.
Qed.

Lemma effect_untouched (ops : list config_op) (s o : string)
    (old : option string) :
  Forall (fun op => op_target op <> (s, o)) ops -> effect ops s o old = old.
Proof.
  unfold effect. revert old.
  induction ops as [|op ops IH]; intros old Hall; [done|].
  apply Forall_cons in Hall as [Hop Hall]. simpl.
  rewrite decide_False by done. by apply IH.
Qed.

(** X23: the start-up configuration succeeds exactly when the window
    size can be read and the sections it writes to ([graphics], [kivy],
    [input]) exist; when it succeeds, the sections are the ones there
    were, in their order, and every option it does not name keeps its
    value. *)
Theorem X23_configuration_needs_sections_and_keeps_the_rest
    (platform : Platform) (c : KivyConfig) :
  (is_Some (configure_at_import platform getenv int_of_str MIN_WIDTH
              MIN_HEIGHT c)
   <-> is_Some (get_window_size platform getenv int_of_str)
       /\ has_sections c)
  /\ forall c',
       configure_at_import platform getenv int_of_str MIN_WIDTH MIN_HEIGHT c
       = Some c' ->
       dict_keys c' = dict_keys c
       /\ forall s o,
            (s, o) ∉ touched_options ->
            config_get s o c' = config_get s o c.
Proof.
  rewrite configure_at_import_ops.
  destruct (get_window_size platform getenv int_of_str)
    as [[width height]|]; [|split; [split|]; [by intros [? ?]|by intros [[? ?] _]|done]].
  split.
  - split.
    + intros [c' Hrun]. split; [done|].
      pose proof (run_ops_some _ _ _ Hrun) as Hall.
      unfold kivy_ops in Hall. rewrite <- app_assoc in Hall.
      apply Forall_app in Hall as [_ Hall].
      apply Forall_cons in Hall as [Hk Hall].
      apply Forall_cons in Hall as [Hg Hall].
      apply Forall_cons in Hall as [_ Hall].
      apply Forall_cons in Hall as [Hi _].
      by repeat split.
    + intros [_ Hsec].
      destruct (run_ops_spec _ c
                  (has_sections_ops c platform width height Hsec))
        as (c' & -> & _). done.
  - intros c' Hrun.
    destruct (run_ops_spec _ c (run_ops_some _ _ _ Hrun))
      as (c2 & Hrun2 & Hk & _ & Hg).
    rewrite Hrun in Hrun2. injection Hrun2 as <-. split; [done|].
    intros s o Hnot. rewrite Hg. apply effect_untouched.
    apply Forall_forall. intros op Hin Heq. apply Hnot. rewrite <- Heq.
    clear -Hin. unfold kivy_ops, mobile_ops in Hin.
    apply list_elem_of_In in Hin. apply list_elem_of_In.
    destruct (truthy width && truthy height), platform; simpl in *;
      intuition (subst; simpl; auto 20).
Qed.

End StartUp.

(** ** Instances of the further properties *)


Lemma X3_throttled_scroll_due_within_throttle_delay_witness :
  let st := run cfg_small lower_ascii
              [Tick 10; ClockFire 0; Tick 50; UserTypes (lit "hi");
               UserSends] (init cfg_small 0) in
  exists i due,
    clock st !! i = Some (due, T_do_throttled_scroll)
    /\ due <= now st + _scroll_throttle_delay cfg_small
    /\ forall d : nat,
         due <= now st + Z.of_nat d ->
         let st' := clock_fire cfg_small i (advance d st) in
         scrolls st' = scrolls st ++ [now st + Z.of_nat d]
         /\ _last_scroll_time st' = now st + Z.of_nat d
         /\ _scroll_scheduled st' = false.
Proof.
  exact (X3_throttled_scroll_due_within_throttle_delay cfg_small
           lower_ascii
           [Tick 10; ClockFire 0; Tick 50; UserTypes (lit "hi"); UserSends]
           0 ltac:(by vm_compute)).
Defined.

Lemma X5_no_send_thread_before_backend_reported_witness :
  let st := run cfg_small lower_ascii probe_fails_then_send
              (init cfg_small 0) in
  backend_available st = false
  /\ Forall (fun th => th = Th_test) (threads st).
Proof.
  exact (X5_no_send_thread_before_backend_reported cfg_small lower_ascii
           probe_fails_then_send 0 eq_refl).
Defined.

Lemma X8_failed_send_reaches_history_witness :
  let st := run cfg_small lower_ascii
              (boot_online ++ [UserTypes (lit "a"); UserSends])
              (init cfg_small 0) in
  let st1 :=
    worker_step cfg_small lower_ascii 0
      (W_raise (lit "[Errno 111] Connection refused")) st in
  label_text (length (heap st)) (clock_fire cfg_small (length (clock st)) st1)
  = 10060%N :: 32%N
    :: lit "Cannot connect to server. Please check your connection.".
Proof.
  intros st st1.
  exact (proj1 (proj2 (proj2 (proj2 (proj2
    (X8_failed_send_reaches_history cfg_small lower_ascii 0 (lit "a")
       (lit "[Errno 111] Connection refused") st eq_refl)))))).
Defined.

Lemma X9_monitor_sets_status_from_client_state_witness :
  let st := init cfg_small 0 in
  status_label (_monitor_connection_state cfg_small None st)
  = MSG_DEMO_MODE cfg_small.
Proof.
  intros st.
  exact (proj2 (proj2 (proj2
    (X9_monitor_sets_status_from_client_state cfg_small None st)))
    eq_refl).
Defined.

Lemma X10_probe_result_applied_by_clock_witness :
  let st := run cfg_small lower_ascii [Tick 1000; ClockFire 0; ClockFire 0]
              (init cfg_small 0) in
  let st1 :=
    worker_step cfg_small lower_ascii 0 (W_test_result (Some true)) st in
  let n := length (clock st) in
  backend_available (clock_fire cfg_small n (clock_fire cfg_small n st1))
  = true.
Proof.
  intros st st1 n.
  exact (proj1 (proj2 (proj2 (proj2
    (X10_probe_result_applied_by_clock cfg_small lower_ascii 0 (Some true)
       st eq_refl))))).
Defined.

Lemma X12_batches_after_eviction_are_invisible_witness :
  let st := send_message cfg_small
              (run cfg_small lower_ascii streaming_then_two_sends
                 (init cfg_small 0)) in
  children (_append_chunk_batch cfg_small (lit "y") st) = children st
  /\ label_text 2 (_append_chunk_batch cfg_small (lit "y") st) = lit "xy".
Proof.
  intros st.
  pose proof (X12_batches_after_eviction_are_invisible cfg_small (lit "y")
                st 2 (mkBubble (lit "x") false) eq_refl eq_refl
                ltac:(apply (bool_decide_unpack _); by vm_compute)) as H.
  exact (conj (proj1 H) (proj1 (proj2 (proj2 H)))).
Defined.

Lemma X14_send_starts_one_thread_with_stripped_text_witness :
  let st := run cfg_small lower_ascii
              (boot_online ++ [UserTypes (lit "  hi ")]) (init cfg_small 0) in
  threads (send_message cfg_small st) = threads st ++ [Th_send (lit "hi")].
Proof.
  intros st.
  exact (proj1
    (X14_send_starts_one_thread_with_stripped_text cfg_small st 104%N
       [105%N] eq_refl eq_refl)).
Defined.

Lemma X15_scroll_request_performed_or_queued_witness :
  let st := init cfg_small 1000 in
  let st' := _scroll_to_bottom cfg_small false st in
  scrolls st' = scrolls st ++ [now st] /\ _last_scroll_time st' = now st
  \/ scrolls st' = scrolls st
     /\ _scroll_scheduled st' = true
     /\ pending_count T_do_throttled_scroll (clock st') = 1%nat.
Proof.
  exact (X15_scroll_request_performed_or_queued cfg_small false
           (init cfg_small 1000) eq_refl).
Defined.

Lemma X16_cleanup_idempotent_and_nonpositive_capacity_witness :
  let st := run cfg_small lower_ascii [UserTypes (lit "hi"); UserSends]
              (init cfg_small 0) in
  let st' := _cleanup_old_messages cfg_small st in
  children st = [2; 1; 0]%nat /\ _cleanup_old_messages cfg_small st' = st'.
Proof.
  intros st st'. split; [done|].
  exact (proj1
    (X16_cleanup_idempotent_and_nonpositive_capacity cfg_small st
       ltac:(apply (bool_decide_unpack _); by vm_compute))).
Defined.

Lemma X17_bubble_texts_only_grow_witness :
  let st := run cfg_small lower_ascii reply_streaming (init cfg_small 0) in
  let st' := run cfg_small lower_ascii
               [Worker 0 (W_chunk (lit "y")); Tick 50; ClockFire 1] st in
  exists t,
    heap st' !! 2%nat = Some (mkBubble (lit "x" ++ t) false)
    /\ (false = true -> t = []).
Proof.
  exact (X17_bubble_texts_only_grow cfg_small lower_ascii reply_streaming
           [Worker 0 (W_chunk (lit "y")); Tick 50; ClockFire 1] 0 2
           (mkBubble (lit "x") false) eq_refl).
Defined.

Lemma X19_profiles_have_the_same_keys_witness :
  get_spacing android Z id = get_spacing ios Z id.
Proof.
  exact (proj1 (proj2 (proj2 (proj2 (proj2 (proj2 (proj2 (proj2
    (X19_profiles_have_the_same_keys Z id android ios "small"%string)))))))
    eq_refl)).
Defined.

Lemma X20_mobile_sizes_larger_witness :
  dict_get "button_size"%string (get_sizes linux Z id) = Some 48
  /\ dict_get "button_size"%string (get_sizes android Z id) = Some 56
  /\ 48 < 56.
Proof.
  split; [done|]. split; [done|].
  exact (proj2
    (X20_mobile_sizes_larger Z id Z.lt android linux "button_size"%string
       56 48 (fun a b H => H) eq_refl eq_refl) eq_refl eq_refl).
Defined.

Lemma X21_android_configuration_witness :
  exists c',
    configure_at_import android getenv_none int_of_str_sample
      "300"%string "400"%string config_small = Some c'
    /\ config_get "graphics"%string "width"%string c' = None.
Proof.
  destruct (X21_android_configuration getenv_none int_of_str_sample
              "300"%string "400"%string config_small
              ltac:(repeat split; by eexists))
    as (c' & H1 & H2 & _).
  exact (ex_intro _ c' (conj H1 H2)).
Defined.

Lemma X22_desktop_window_configuration_witness :
  exists c',
    configure_at_import linux getenv_none int_of_str_sample
      "300"%string "400"%string config_small = Some c'
    /\ config_get "graphics"%string "width"%string c' = Some "400"%string.
Proof.
  destruct (X22_desktop_window_configuration getenv_none int_of_str_sample
              "300"%string "400"%string linux config_small eq_refl
              ltac:(repeat split; by eexists))
    as (c' & H1 & _ & _ & H2 & _).
  exact (ex_intro _ c' (conj H1 H2)).
Defined.

Lemma X23_configuration_needs_sections_and_keeps_the_rest_witness :
  is_Some
    (configure_at_import linux getenv_none int_of_str_sample
       "300"%string "400"%string config_small).
Proof.
  apply (proj1 (X23_configuration_needs_sections_and_keeps_the_rest
                  getenv_none int_of_str_sample "300"%string "400"%string
                  linux config_small)).
  split; [by eexists|]. repeat split; by eexists.
Defined.
